(** * taxdata stage-1 extraction scripts: a shallow embedding

    Embeds the spreadsheet readers of [puf_stage1/cbo_chained_cpiu.py] and
    the wage-bucket summation of [puf_stage1/updatesoi.py], and proves the
    properties their specification states about them.

    Python integers are [Z]; a one-character string is its code point;
    [sys.stderr.write] and [pandas.read_excel] are recorded in a trace;
    exceptions are the left summand of a result. *)

From Stdlib Require Import ZArith Lia List Ascii String DecimalString.
From stdpp Require Import base option list gmap strings.

Local Open Scope string_scope.
Local Open Scope Z_scope.

(** ** Python primitives used by both scripts *)
Module Py.

(** The exceptions the embedded code can raise. *)
Inductive exn : Type :=
| AttributeError
| IndexError
| KeyError
| ValueError
| AssertionError
| TypeError.

(** What a run does to the outside world. *)
Inductive event : Type :=
| StderrWrite (msg : string)
| ReadExcel (fname : string).

(** A computation: the events it performed, then an exception or a value. *)
Definition io (A : Type) : Type := (list event * (exn + A))%type.

Definition ret {A} (a : A) : io A := ([], inr a).
Definition raise {A} (e : exn) : io A := ([], inl e).
Definition emit (ev : event) : io unit := ([ev], inr tt).
Definition stderr_write (msg : string) : io unit := emit (StderrWrite msg).
Definition lift {A} (r : exn + A) : io A := ([], r).

Definition bind {A B} (m : io A) (k : A → io B) : io B :=
  match m with
  | (t, inl e) => (t, inl e)
  | (t, inr a) => let '(t', r) := k a in ((t ++ t')%list, r)
  end.

Definition trace {A} (m : io A) : list event := fst m.
Definition outcome {A} (m : io A) : exn + A := snd m.

(** The line feed of the ["\n"] that ends every diagnostic. *)
Definition nl : string := String (ascii_of_nat 10) EmptyString.

(** [str(n)] and [f"{n}"] for an [int]. *)
Definition str_int (n : Z) : string := NilZero.string_of_int (Z.to_int n).

(** [s.startswith(pre)]: character by character, nothing folded. *)
Fixpoint startswith (s pre : string) {struct pre} : bool :=
  match pre with
  | EmptyString => true
  | String p pre' =>
      match s with
      | EmptyString => false
      | String c s' => if Ascii.eqb c p then startswith s' pre' else false
      end
  end.

(** A one-character [str], by code point. *)
Definition char : Type := Z.

Definition of_ascii (a : ascii) : char := Z.of_N (N_of_ascii a).

Definition ord (c : char) : Z := c.

(** [chr(n)]: [ValueError] outside [range(0x110000)]. *)
Definition chr (n : Z) : exn + char :=
  if (0 <=? n) && (n <? 1114112) then inr n else inl ValueError.

(** [l[i]] on a list: a negative index counts from the end. *)
Definition getitem {A} (l : list A) (i : Z) : exn + A :=
  let n := Z.of_nat (length l) in
  let k := if i <? 0 then i + n else i in
  if (0 <=? k) && (k <? n) then
    match l !! Z.to_nat k with
    | Some x => inr x
    | None => inl IndexError
    end
  else inl IndexError.

(** [lo <= x < hi], the test [x in range(lo, hi)]. *)
Definition in_range (x lo hi : Z) : bool := (lo <=? x) && (x <? hi).

(** The bounds [slice(start, stop).indices(len)] of a slice of step one. *)
Definition slice_bound (len x : Z) : Z :=
  if x <? 0 then Z.max (x + len) 0 else Z.min x len.

(** [l[start:stop]]. *)
Definition slice {A} (l : list A) (start stop : Z) : list A :=
  let len := Z.of_nat (length l) in
  let a := slice_bound len start in
  let b := slice_bound len stop in
  take (Z.to_nat (b - a)) (drop (Z.to_nat a) l).

End Py.

#[global] Instance io_ret : MRet Py.io := @Py.ret.
#[global] Instance io_bind : MBind Py.io := fun A B k m => Py.bind m k.

(** ** puf_stage1/cbo_chained_cpiu.py *)
Module Cbo.
Import Py.

(** One entry of [CBO_YEAR]: a year and the spreadsheet column holding it. *)
Record year_col : Type := { year : Z; col : ascii }.

(** [CBO_YEAR]. *)
Record cbo_year : Type := { first : year_col; last : year_col }.

(** One entry of [CBO_ROWS]: the 1-based spreadsheet row, the label the
    row is expected to start with, and whether the entry has a ["pct"]
    key. *)
Record cbo_row : Type := { row : Z; label : string; pct : bool }.

(** The module-level [CBO_*] structures. [CBO_ROWS] keeps the insertion
    order that [dict.items()] iterates in. *)
Record config : Type := {
  CBO_STR_COLS : list Z;
  CBO_YEAR : cbo_year;
  CBO_ROWS : list (string * cbo_row)
}.

(** The two [taxcalc.Policy] constants the script consults. *)
Record policy : Type := { LAST_KNOWN_YEAR : Z; LAST_BUDGET_YEAR : Z }.

(** The structures as the script defines them. *)
Definition cbo_2024 : config := {|
  CBO_STR_COLS := [0; 1; 2; 3];
  CBO_YEAR := {| first := {| year := 2021; col := "E" |};
                 last := {| year := 2034; col := "R" |} |};
  CBO_ROWS :=
    [ ("year", {| row := 8; label := "Tax Year"; pct := false |});
      ("c_cpiu", {| row := 158; label := "Chained consumer price index";
                    pct := false |}) ]
|}.

(** [CBO_ROWS[name]], and [name in CBO_ROWS] when it is [Some]. *)
Fixpoint rows_get (rows : list (string * cbo_row)) (name : string)
  : option cbo_row :=
  match rows with
  | [] => None
  | (k, v) :: rest => if String.eqb k name then Some v else rows_get rest name
  end.

Definition rindex (row_number : Z) : Z := row_number - 1.

Definition cindex (capital_letter : char) : Z :=
  ord capital_letter - ord (of_ascii "A").

(** [check_cbo_year()]: 0 if [CBO_YEAR] is consistent, else 1. *)
Definition check_cbo_year (cfg : config) : io Z :=
  let ydiff := year (last (CBO_YEAR cfg)) - year (first (CBO_YEAR cfg)) in
  let cdiff := cindex (of_ascii (col (last (CBO_YEAR cfg))))
               - cindex (of_ascii (col (first (CBO_YEAR cfg)))) in
  if negb (ydiff =? cdiff) then
    let msg := "CBO_YEAR contents are inconsistent" in
    stderr_write ("STRUCT: " ++ msg ++ nl);;
    mret 1
  else mret 0.

(** [read_cbo_label(cbolabel, row)], with [CBO_STR_COLS] passed in. *)
Fixpoint scan_label (cbolabel : gmap Z (list string)) (ridx : Z)
    (cols : list Z) : exn + option string :=
  match cols with
  | [] => inr None
  | col :: rest =>
      match cbolabel !! col with
      | None => inl KeyError
      | Some column =>
          match getitem column ridx with
          | inl e => inl e
          | inr label =>
              if negb (String.eqb label "nan") then inr (Some label)
              else scan_label cbolabel ridx rest
          end
      end
  end.

Definition read_cbo_label (cfg : config) (cbolabel : gmap Z (list string))
    (row : Z) : exn + option string :=
  let ridx := rindex row in
  scan_label cbolabel ridx (CBO_STR_COLS cfg).

(** *** Predicates the properties below are stated with *)

(** [cbolabel[col][ridx]], the cell [read_cbo_label] looks at. *)
Definition label_cell (cbolabel : gmap Z (list string)) (col ridx : Z)
  : exn + string :=
  match cbolabel !! col with
  | None => inl KeyError
  | Some column => getitem column ridx
  end.

(** The two sides of the [CBO_YEAR] consistency test. *)
Definition ydiff (cfg : config) : Z :=
  year (last (CBO_YEAR cfg)) - year (first (CBO_YEAR cfg)).

Definition cdiff (cfg : config) : Z :=
  cindex (of_ascii (col (last (CBO_YEAR cfg))))
  - cindex (of_ascii (col (first (CBO_YEAR cfg)))).

(** A field passes when its row resolves to a label that starts with the
    expected one. *)
Definition field_ok (cfg : config) (cbolabel : gmap Z (list string))
    (item : string * cbo_row) : Prop :=
  ∃ alabel, read_cbo_label cfg cbolabel (row item.2) = inr (Some alabel)
            ∧ startswith alabel (label item.2) = true.

(** The structure checks [read_check_spreadsheet] makes before it reads
    the sheet all pass. *)
Definition years_ok (cfg : config) (pol : policy) : Prop :=
  outcome (check_cbo_year cfg) = inr 0
  ∧ in_range (LAST_KNOWN_YEAR pol) (year (first (CBO_YEAR cfg)) + 1)
      (year (last (CBO_YEAR cfg))) = true
  ∧ in_range (LAST_BUDGET_YEAR pol) (year (first (CBO_YEAR cfg)) + 2)
      (year (last (CBO_YEAR cfg)) + 1) = true.

Section Spreadsheet.
(** The numbers a spreadsheet cell can hold, and Python's [str] on
    them, are left open: the script only passes numbers through. *)
Variable num : Type.
Variable str_num : num → string.

(** A cell read with [dtype=object]: text, a number, or the NaN that an
    empty cell becomes. *)
Inductive cell : Type :=
| CStr (s : string)
| CNum (x : num)
| CNaN.

Definition str (obj : cell) : string :=
  match obj with
  | CStr s => s
  | CNum x => str_num x
  | CNaN => "nan"
  end.

(** A [DataFrame] read with [header=None]: columns labelled
    [0 .. ncols-1]; a row shorter than [ncols] is padded with NaN. *)
Record DataFrame : Type := { ncols : nat; rows : list (list cell) }.

Definition cell_of (r : list cell) (c : nat) : cell :=
  default CNaN (r !! c).

(** [df[col].tolist()]: selection by column label. *)
Definition column (df : DataFrame) (col : Z) : exn + list cell :=
  if (0 <=? col) && (col <? Z.of_nat (ncols df)) then
    inr (map (fun r => cell_of r (Z.to_nat col)) (rows df))
  else inl KeyError.

(** [df.iat[r, c]]: positional, negative positions count from the end. *)
Definition iat (df : DataFrame) (r c : Z) : exn + cell :=
  match getitem (rows df) r with
  | inl e => inl e
  | inr rw =>
      let n := Z.of_nat (ncols df) in
      let k := if c <? 0 then c + n else c in
      if (0 <=? k) && (k <? n) then inr (cell_of rw (Z.to_nat k))
      else inl IndexError
  end.

(** What [cbo_value] returns: [None], the cell itself, or
    [round(0.01 * val, 6)] of a cell that is a number or NaN, whose
    floating-point evaluation is left symbolic. *)
Inductive value : Type :=
| VNone
| VCell (val : cell)
| VPct (val : cell).

Definition cbo_value (cfg : config) (cbodf : DataFrame) (name : string)
    (yr : Z) : io value :=
  (* check argument values *)
  let args_ok := true in
  args_ok ←
    (if negb (bool_decide (is_Some (rows_get (CBO_ROWS cfg) name))) then
       let msg := "name " ++ name ++ " not in CBO_ROWS data structure" in
       stderr_write ("CBO: " ++ msg ++ nl);;
       mret false
     else mret args_ok);
  let first_year := year (first (CBO_YEAR cfg)) in
  args_ok ←
    (if yr <? first_year then
       let msg := "year " ++ str_int yr ++ " less than first year "
                  ++ str_int first_year in
       stderr_write ("CBO: " ++ msg ++ nl);;
       mret false
     else mret args_ok);
  let last_year := year (last (CBO_YEAR cfg)) in
  args_ok ←
    (if yr >? last_year then
       let msg := "year " ++ str_int yr ++ " greater than last year "
                  ++ str_int last_year in
       stderr_write ("CBO: " ++ msg ++ nl);;
       mret false
     else mret args_ok);
  if negb args_ok then mret VNone
  else
    match rows_get (CBO_ROWS cfg) name with
    | None => raise KeyError
    | Some spec =>
        (* translate name to row number *)
        let row := row spec in
        (* convert year to column letter *)
        let ord_first_year := ord (of_ascii (col (first (CBO_YEAR cfg)))) in
        letter ← lift (chr (ord_first_year + yr - first_year));
        (* get cbo_value from cbodf *)
        val ← lift (iat cbodf (rindex row) (cindex letter));
        if pct spec then
          match val with
          | CStr _ => raise TypeError   (* 0.01 * val on text *)
          | _ => mret (VPct val)
          end
        else mret (VCell val)
    end.

(** The loop filling [cbolabel] with the string columns. *)
Fixpoint fill_labels (cbodf : DataFrame) (cols : list Z)
    (cbolabel : gmap Z (list string)) : exn + gmap Z (list string) :=
  match cols with
  | [] => inr cbolabel
  | col :: rest =>
      match column cbodf col with
      | inl e => inl e
      | inr objs => fill_labels cbodf rest (<[col := map str objs]> cbolabel)
      end
  end.

(** The loop checking the spreadsheet against [CBO_ROWS]; [None] is the
    early [return None], [Some tt] is falling out of the loop. *)
Fixpoint check_rows (cfg : config) (cbolabel : gmap Z (list string))
    (items : list (string * cbo_row)) : io (option unit) :=
  match items with
  | [] => mret (Some tt)
  | (cname, cdict) :: rest =>
      let elabel := label cdict in
      alabel ← lift (read_cbo_label cfg cbolabel (row cdict));
      match alabel with
      | None => raise AttributeError   (* None has no startswith *)
      | Some alabel =>
          if negb (startswith alabel elabel) then
            let msg := "for " ++ cname ++ " expected label is " ++ elabel
                       ++ " but found " ++ alabel in
            stderr_write ("READ: " ++ msg ++ nl);;
            mret None
          else check_rows cfg cbolabel rest
      end
  end.

(** [read_check_spreadsheet(fname)]. [file] is what [pandas.read_excel]
    yields for [fname]: the sheet, or [None] when it raises. *)
Definition read_check_spreadsheet (cfg : config) (pol : policy)
    (fname : string) (file : option DataFrame) : io (option DataFrame) :=
  (* check CBO_YEAR consistency *)
  rcode ← check_cbo_year cfg;
  if negb (rcode =? 0) then mret None
  else
    (* check taxcalc.Policy YEAR constants against CBO_YEAR info *)
    let ok_years := true in
    let lky := LAST_KNOWN_YEAR pol in
    ok_years ←
      (if negb (in_range lky (year (first (CBO_YEAR cfg)) + 1)
                  (year (last (CBO_YEAR cfg)))) then
         let msg := "Policy.LAST_KNOWN_YEAR=" ++ str_int lky
                    ++ " inconsistent with CBO_YEAR info" in
         stderr_write ("STRUCT: " ++ msg ++ nl);;
         mret false
       else mret ok_years);
    let lby := LAST_BUDGET_YEAR pol in
    ok_years ←
      (if negb (in_range lby (year (first (CBO_YEAR cfg)) + 2)
                  (year (last (CBO_YEAR cfg)) + 1)) then
         let msg := "Policy.LAST_BUDGET_YEAR=" ++ str_int lby
                    ++ " inconsistent with CBO_YEAR info" in
         stderr_write ("STRUCT: " ++ msg ++ nl);;
         mret false
       else mret ok_years);
    if negb ok_years then mret None
    else
      (* read spreadsheet *)
      emit (ReadExcel fname);;
      match file with
      | None =>
          let msg := "could not read sheet in " ++ fname
                     ++ " into a DataFrame" in
          stderr_write ("READ: " ++ msg ++ nl);;
          mret None
      | Some cbodf =>
          (* extract string columns into cbolabel *)
          cbolabel ← lift (fill_labels cbodf (CBO_STR_COLS cfg) ∅);
          (* check spreadsheet against CBO_ROWS *)
          checked ← check_rows cfg cbolabel (CBO_ROWS cfg);
          match checked with
          | None => mret None
          | Some _ => mret (Some cbodf)
          end
      end.

End Spreadsheet.

Arguments CStr {num} s.
Arguments CNum {num} x.
Arguments CNaN {num}.
Arguments VNone {num}.
Arguments VCell {num} val.
Arguments VPct {num} val.
Arguments ncols {num} d.
Arguments rows {num} d.
Arguments cell_of {num} r c.
Arguments column {num} df col.
Arguments iat {num} df r c.
Arguments cbo_value {num} cfg cbodf name yr.

End Cbo.

(** ** puf_stage1/updatesoi.py: the wage buckets of SOI table 1.4 *)
Module Soi.
Import Py.

(** The row-index pairs of the wage bins. *)
Definition PUFWAGES : list (Z * Z) :=
  [ (2, 2); (3, 4); (5, 6); (7, 8); (9, 9); (10, 10); (11, 11); (12, 12);
    (13, 13); (14, 14); (15, 15); (17, 20) ].

Definition CPSWAGES : list (Z * Z) :=
  [ (2, 4); (5, 6); (7, 8); (9, 9); (10, 10); (11, 11); (12, 12); (13, 20) ].

(** A value of numpy's [int64]: two's complement on 64 bits. *)
Definition wrap64 (z : Z) : Z := (z + 2 ^ 63) mod 2 ^ 64 - 2 ^ 63.

Definition add64 (a b : Z) : Z := wrap64 (a + b).

(** [.sum()] of an [int64] column: the accumulator wraps around. *)
Definition sum64 (l : list Z) : Z := fold_left add64 l 0.

Section Table14.
(** A row of the table as [read_excel] returns it, and its cell under
    "Salaries and wages" / "Amount"; the other columns are not looked
    at by the wage code. *)
Variable row : Type.
Variable salaries_and_wages : row → Z.
(** [table14_nonwages], which [table14] runs before the wage code. *)
Variable nonwages : Type.
Variable table14_nonwages : list row → exn + nonwages.

(** [data.iloc[i : j + 1].sum()[0].astype(int)] for one pair, on a wage
    column of dtype [int64] (whole-number cells, none empty), which is
    what this embedding covers; a column that [read_excel] types as
    [float64] is summed in floating point and is outside it. *)
Definition bucket (column : list Z) (ij : Z * Z) : Z :=
  let '(i, j) := ij in
  sum64 (slice column i (j + 1)).

(** [table14_wages(data, indicies)]. *)
Definition table14_wages (data : list row) (indicies : list (Z * Z))
  : exn + list Z :=
  if negb (Z.of_nat (length data) =? 21) then inl AssertionError
  else
    let data := map salaries_and_wages data in
    inr (map (bucket data) indicies).

(** [table14(year, wage_indicies, datapath)] past the [read_excel]:
    [sheet] is the table read. *)
Definition table14 (sheet : list row) (wage_indicies : list (Z * Z))
  : exn + (nonwages * list Z) :=
  let data := slice sheet 0 21 in
  match table14_nonwages data with
  | inl e => inl e
  | inr nonwages =>
      match table14_wages data wage_indicies with
      | inl e => inl e
      | inr wages => inr (nonwages, wages)
      end
  end.

End Table14.

(** The mathematical sum of rows [i .. j] of a column, both included. *)
Definition rows_total (column : list Z) (i j : Z) : Z :=
  foldr Z.add 0
    (map (fun k => default 0 (column !! k))
         (seq (Z.to_nat i) (Z.to_nat (j - i + 1)))).


(** A pair of row indices lying inside a table of [n] rows. *)
Definition in_table (n : Z) (ij : Z * Z) : Prop :=
  0 ≤ ij.1 ∧ ij.1 ≤ ij.2 ∧ ij.2 < n.

End Soi.

(** ** Concrete sheets and tables the properties are run on *)
Module Examples.
Import Py Cbo.

(** Policy constants inside the ranges the script accepts. *)
Definition pol : policy :=
  {| LAST_KNOWN_YEAR := 2025; LAST_BUDGET_YEAR := 2034 |}.

(** A sheet of 158 rows and 18 columns (A to R), integer cells printed
    by [str_int]: row 8 holds [a8] in column A, row 158 holds [a158] in
    column A and [values] from column E on; all other cells are empty. *)
Definition sheet (a8 a158 : cell Z) (values : list (cell Z)) : DataFrame Z :=
  {| ncols := 18;
     rows := (replicate 7 [] ++ [[a8]] ++ replicate 149 []
              ++ [[a158; CNaN; CNaN; CNaN] ++ values])%list |}.

Definition cpiu_values : list (cell Z) :=
  map CNum [145; 149; 160; 168; 173; 177; 180; 184; 187; 191; 195; 199;
            203; 207].

(** Labels as expected. *)
Definition good_sheet : DataFrame Z :=
  sheet (CStr "Tax Year") (CStr "Chained consumer price index (CPI-U)")
    cpiu_values.

(** Row 158 carries a near-miss label. *)
Definition near_miss_sheet : DataFrame Z :=
  sheet (CStr "Tax Year") (CStr "Chained CPI-U index") cpiu_values.

(** Row 8 has no label in columns A to D. *)
Definition blank_label_sheet : DataFrame Z :=
  sheet CNaN (CStr "Chained consumer price index (CPI-U)") cpiu_values.

(** Cell E158 holds text. *)
Definition text_cell_sheet : DataFrame Z :=
  sheet (CStr "Tax Year") (CStr "Chained consumer price index (CPI-U)")
    (CStr "n.a." :: cpiu_values).

(** The [cbolabel] dictionary [read_check_spreadsheet] builds from a
    sheet. *)
Definition labels_of (df : DataFrame Z) : gmap Z (list string) :=
  match fill_labels Z str_int df (CBO_STR_COLS cbo_2024) ∅ with
  | inr m => m
  | inl _ => ∅
  end.

(** [CBO_YEAR] with the last column mistyped as Q. *)
Definition cbo_2024_Q : config := {|
  CBO_STR_COLS := CBO_STR_COLS cbo_2024;
  CBO_YEAR := {| first := first (CBO_YEAR cbo_2024);
                 last := {| year := 2034; col := "Q" |} |};
  CBO_ROWS := CBO_ROWS cbo_2024
|}.

(** A wage column of 21 rows. *)
Definition wage_column : list Z :=
  [100; 1; 2; 3; 5; 9; 9; 10; 4; 7; 8; 11; 12; 13; 14; 15; 16; 17; 18; 19;
   20].

End Examples.

(** ** More of Python: string operations of the callers *)
Module PyExt.
Import Py.

(** [s.endswith(suf)]: some tail of [s] is [suf]. *)
Fixpoint endswith (s suf : string) : bool :=
  if String.eqb s suf then true
  else match s with
       | EmptyString => false
       | String _ s' => endswith s' suf
       end.

(** [s[start:]] on a string. *)
Definition str_from (s : string) (start : Z) : string :=
  let len := Z.of_nat (String.length s) in
  let a := slice_bound len start in
  String.substring (Z.to_nat a) (Z.to_nat (len - a)) s.

End PyExt.

(** ** puf_stage1/cbo_chained_cpiu.py: the command line *)
Module Script.
Import Py PyExt Cbo.

(** [check_arguments(args)]: [fname] is [args.CBOFILENAME] and
    [path_exists] is what [os.path.exists(fname)] answers. *)
Definition check_arguments (fname : string) (path_exists : bool) : io Z :=
  let rcode := 0 in
  if Z.of_nat (String.length fname) <=? 0 then
    let msg := "must specify CBOFILENAME command-line argument" in
    stderr_write ("ERROR: " ++ msg ++ nl);;
    mret 1
  else
    rcode ←
      (if negb (endswith fname ".xlsx") then
         let msg := "CBOFILENAME " ++ fname ++ " does not end with .xlsx" in
         stderr_write ("ERROR: " ++ msg ++ nl);;
         mret 1
       else mret rcode);
    rcode ←
      (if negb path_exists then
         let msg := "CBOFILENAME " ++ fname ++ " does not exist" in
         stderr_write ("ERROR: " ++ msg ++ nl);;
         mret 1
       else mret rcode);
    mret rcode.

Definition usage_str : string :=
  "python cbo_chained_cpiu.py CBOFILENAME [--help]".

Section Main.
Variable num : Type.
Variable str_num : num → string.

(** What [main] does to the outside world: the events of the functions
    it calls, and the lines it prints. [Print yr val] is the line
    [f"{yr}  {val:.6f}"], whose formatting of a float is left symbolic. *)
Inductive output : Type :=
| Event (ev : event)
| Print (yr : Z) (val : value num).

(** A run of [main]: what it did, then an exception or a value. *)
Definition run (A : Type) : Type := (list output * (exn + A))%type.

Definition run_ret {A} (a : A) : run A := ([], inr a).

Definition run_bind {A B} (m : run A) (k : A → run B) : run B :=
  match m with
  | (t, inl e) => (t, inl e)
  | (t, inr a) => let '(t', r) := k a in ((t ++ t')%list, r)
  end.

(** A run of one of the functions [main] calls. *)
Definition of_io {A} (m : io A) : run A :=
  (map Event (trace m), outcome m).

(** [print(f"{yr}  {val:.6f}")]: [None] and text have no format code
    [f]; [0.01 * val] is not defined on text. *)
Definition print_line (yr : Z) (val : value num) : run unit :=
  match val with
  | VNone => ([], inl TypeError)
  | VCell (CStr _) => ([], inl ValueError)
  | VPct (CStr _) => ([], inl TypeError)
  | _ => ([Print yr val], inr tt)
  end.

(** The loop of [main] over the years. *)
Fixpoint print_years (cfg : config) (cbodf : DataFrame num)
    (years : list Z) : run unit :=
  match years with
  | [] => run_ret tt
  | yr :: rest =>
      run_bind (of_io (cbo_value cfg cbodf "c_cpiu" yr)) (fun val =>
      run_bind (print_line yr val) (fun _ =>
      print_years cfg cbodf rest))
  end.

(** [main()] past the parsing of the command line. *)
Definition main (cfg : config) (pol : policy) (fname : string)
    (path_exists : bool) (file : option (DataFrame num)) : run Z :=
  (* check command-line arguments *)
  run_bind (of_io (check_arguments fname path_exists)) (fun rcode =>
  if negb (rcode =? 0) then
    run_bind (of_io (stderr_write ("USAGE: " ++ usage_str ++ nl))) (fun _ =>
    run_ret rcode)
  else
    (* read and check structure of CBO tax parameters spreadsheet *)
    run_bind (of_io (read_check_spreadsheet num str_num cfg pol fname file))
      (fun cbodf =>
    match cbodf with
    | None =>
        run_bind (of_io (stderr_write
                           ("ERROR: CBO spreadsheet has unexpected structure"
                            ++ nl))) (fun _ =>
        run_ret 1)
    | Some cbodf =>
        (* write chained CPI-U values for each year in CBO spreadsheet *)
        let first_year := year (first (CBO_YEAR cfg)) in
        let last_year := year (last (CBO_YEAR cfg)) in
        run_bind (print_years cfg cbodf
                    (seqZ first_year (last_year + 1 - first_year))) (fun _ =>
        run_ret 0)
    end)).

End Main.

Arguments Event {num} ev.
Arguments Print {num} yr val.
Arguments run_ret {num A} a.
Arguments run_bind {num A B} m k.
Arguments of_io {num A} m.
Arguments print_line {num} yr val.
Arguments print_years {num} cfg cbodf years.

End Script.

(** ** puf_stage1/updatesoi.py: assembling the estimates *)
Module UpdateSoi.
Import Py PyExt Soi.

(** The four header labels that name a column of table 1.4. *)
Definition colkey : Type := (string * string * string * string)%type.

(** [TABLE14COLS]: the name of the estimate, then the column ([col[0]] and
    [col[1:]]). *)
Definition TABLE14COLS : list (string * colkey) :=
  [ ("SS_return",
     ("Social security benefits", "Total [1]", "Unnamed: 67_level_2",
      "Number of" ++ nl ++ "returns"));
    ("INTS",
     ("Taxable interest", "Unnamed: 8_level_1", "Unnamed: 8_level_2",
      "Amount"));
    ("DIVS",
     ("Ordinary dividends", "Unnamed: 12_level_1", "Unnamed: 12_level_2",
      "Amount"));
    ("SCHCI",
     ("Business or profession", "Net" ++ nl ++ "income",
      "Unnamed: 20_level_2", "Amount"));
    ("SCHCL",
     ("Business or profession", "Net" ++ nl ++ "loss",
      "Unnamed: 22_level_2", "Amount"));
    ("CGNS",
     ("Sales of capital assets reported on Form 1040, Schedule D [2]",
      "Taxable" ++ nl ++ "net gain", "Unnamed: 26_level_2", "Amount"));
    ("Pension",
     ("Pensions and annuities", "Unnamed: 38_level_1", "Taxable", "Amount"));
    ("SCHEI",
     ("Total rental and royalty", "Net" ++ nl ++ "income",
      "Unnamed: 52_level_2", "Amount"));
    ("SCHEI",
     ("Partnership and S corporation", "Net" ++ nl ++ "income",
      "Unnamed: 56_level_2", "Amount"));
    ("SCHEI",
     ("Estate and trust", "Net" ++ nl ++ "income", "Unnamed: 60_level_2",
      "Amount"));
    ("SCHEL",
     ("Total rental and royalty", "Net" ++ nl ++ "loss",
      "Unnamed: 54_level_2", "Amount"));
    ("SCHEL",
     ("Partnership and S corporation", "Net" ++ nl ++ "loss",
      "Unnamed: 58_level_2", "Amount"));
    ("SCHEL",
     ("Estate and trust", "Net" ++ nl ++ "loss", "Unnamed: 62_level_2",
      "Amount"));
    ("SS",
     ("Social security benefits", "Total [1]", "Unnamed: 70_level_2",
      "Amount"));
    ("UCOMP",
     ("Unemployment compensation", "Unnamed: 68_level_1",
      "Unnamed: 68_level_2", "Amount")) ].

(** A run: the lines it printed, then an exception or a value. *)
Definition out (A : Type) : Type := (list string * (exn + A))%type.

Definition out_ret {A} (a : A) : out A := ([], inr a).

Definition out_bind {A B} (m : out A) (k : A → out B) : out B :=
  match m with
  | (t, inl e) => (t, inl e)
  | (t, inr a) => let '(t', r) := k a in ((t ++ t')%list, r)
  end.

Definition print (line : string) : out unit := ([line], inr tt).

(** A step that prints nothing and may raise. *)
Definition attempt {A} (r : exn + A) : out A := ([], r).

(** What [table14_nonwages] returns: its [defaultdict(int)], or the empty
    list of the year-"18" branch. *)
Inductive nonwages : Type :=
| Values (values : gmap string Z)
| EmptyList.

(** [nonwages[key]]: a [defaultdict(int)] answers 0 for a missing key; a
    list cannot be indexed by a string. *)
Definition nonwages_get (nw : nonwages) (key : string) : out Z :=
  match nw with
  | Values values => out_ret (default 0 (values !! key))
  | EmptyList => ([], inl TypeError)
  end.

Section Tables.
(** The sheets are what [pd.read_excel] returns for a file name under
    [datapath]; label-based selection in them is left to pandas. *)
Variable row : Type.
Variable salaries_and_wages : row → Z.
(** [data[key].loc["All returns, total"].astype(int)] on table 1.4. *)
Variable all_returns_total : list row → colkey → exn + Z.
Variable read_table14 : string → exn + list row.
Variable table12_sheet : Type.
Variable read_table12 : string → exn + table12_sheet.
(** [data[col]["Number\nof\nreturns"].loc["All returns, total"]
    .values[0].astype(int)] on table 1.2. *)
Variable numfilers : table12_sheet → string → exn + Z.
Variable table21_sheet : Type.
Variable read_table21 : string → exn + table21_sheet.
(** [data["Itemized deductions"]["Interest paid deduction"]["Total"][un]
    ["Amount"].loc["All returns, total"].astype(int)] on table 2.1. *)
Variable interest_paid : table21_sheet → string → exn + Z.

(** [table12(year, datapath)]. *)
Definition table12 (year : string) : out (Z * Z * Z) :=
  let file_ := str_from year (-2) ++ "in12ms.xls" in
  out_bind (print file_) (fun _ =>
  out_bind (attempt (read_table12 file_)) (fun data =>
  out_bind (attempt (numfilers data "Returns of single persons")) (fun single =>
  let col := "Returns of married persons filing jointly and returns of surviving spouses" in
  out_bind (attempt (numfilers data col)) (fun married1 =>
  out_bind (attempt (numfilers data "Returns of married persons filing separately"))
    (fun married2 =>
  let married := add64 married1 married2 in
  out_bind (attempt (numfilers data "Returns of heads of households")) (fun hoh =>
  out_ret (single, married, hoh))))))).

(** [table21(year, datapath)]. *)
Definition table21 (year : string) : out Z :=
  let file_ := year ++ "in21id.xls" in
  out_bind (attempt (read_table21 file_)) (fun data =>
  let un := "Unnamed: 89_level_3" in
  let un := if String.eqb year "2017" then "Unnamed: 85_level_3" else un in
  let un := if String.eqb year "2019" then "Unnamed: 91_level_3" else un in
  attempt (interest_paid data un)).

(** The loop of [table14_nonwages]: [values[col[0]] += val]. *)
Fixpoint add_columns (data : list row) (cols : list (string * colkey))
    (values : gmap string Z) : exn + gmap string Z :=
  match cols with
  | [] => inr values
  | col :: rest =>
      match all_returns_total data col.2 with
      | inl e => inl e
      | inr val =>
          add_columns data rest
            (<[col.1 := add64 (default 0 (values !! col.1)) val]> values)
      end
  end.

(** [table14_nonwages(data, cols)]; [global_year] is the module-level
    [year] the function reads. *)
Definition table14_nonwages (global_year : string) (data : list row)
    (cols : list (string * colkey)) : out nonwages :=
  if String.eqb global_year "18" then
    out_bind (print "recheck the value by hand") (fun _ =>
    out_ret EmptyList)
  else
    out_bind (attempt (add_columns data cols ∅)) (fun values =>
    out_ret (Values values)).

(** [table14(year, wage_indicies, datapath)]. *)
Definition table14 (global_year year : string)
    (wage_indicies : list (Z * Z)) : out (nonwages * list Z) :=
  out_bind (attempt (read_table14 (str_from year (-2) ++ "in14ar.xls")))
    (fun data =>
  let data := slice data 0 21 in
  out_bind (table14_nonwages global_year data TABLE14COLS) (fun nonwages =>
  out_bind (attempt (table14_wages row salaries_and_wages data wage_indicies))
    (fun wages =>
  out_ret (nonwages, wages)))).

(** [update_soi(year, datapath, wage_indicies, file_)]. *)
Definition update_soi (global_year year : string)
    (wage_indicies : list (Z * Z)) (file_ : string) : out (list Z) :=
  out_bind (table12 year) (fun '(single, married, hoh) =>
  let dep_return := 0 in
  out_bind (table21 year) (fun ipd =>
  out_bind (table14 global_year year wage_indicies) (fun '(nonwages, wages) =>
  out_bind (nonwages_get nonwages "SS_return") (fun ss_return =>
  out_bind (nonwages_get nonwages "INTS") (fun ints =>
  out_bind (nonwages_get nonwages "DIVS") (fun divs =>
  out_bind (nonwages_get nonwages "SCHCI") (fun schci =>
  out_bind (nonwages_get nonwages "SCHCL") (fun schcl =>
  out_bind (nonwages_get nonwages "CGNS") (fun cgns =>
  out_bind (nonwages_get nonwages "Pension") (fun pension =>
  out_bind (nonwages_get nonwages "SCHEI") (fun schei =>
  out_bind (nonwages_get nonwages "SCHEL") (fun schel =>
  out_bind (nonwages_get nonwages "SS") (fun ss =>
  out_bind (nonwages_get nonwages "UCOMP") (fun ucomp =>
  let values :=
    [single; married; hoh; ss_return; dep_return; ints; divs; schci; schcl;
     cgns; pension; schei; schel; ss; ucomp; ipd] in
  let values := if String.eqb file_ "cps" then slice values 0 (-1)
                else values in
  let values := (values ++ wages)%list in
  out_ret values)))))))))))))).

End Tables.

(** The cells [add_columns] adds up under the name [key], in order. *)
Definition named_cells {row : Type}
    (all_returns_total : list row → colkey → exn + Z) (data : list row)
    (cols : list (string * colkey)) (key : string) : list Z :=
  flat_map (fun col : string * colkey =>
              if String.eqb col.1 key then
                match all_returns_total data col.2 with
                | inr val => [val]
                | inl _ => []
                end
              else [])
    cols.

End UpdateSoi.

(** ** Small tables the SOI properties are run on *)
Module SoiExamples.
Import Py PyExt Soi UpdateSoi.

(** A row of table 1.4: its index label, its wage amount and its other
    cells by column. *)
Definition example_row : Type := (string * Z * list (colkey * Z))%type.

Definition wage_of (r : example_row) : Z := r.1.2.

(** The cell of a column in the row labelled "All returns, total";
    [KeyError] when the row or the column is missing. *)
Definition lookup_total (data : list example_row) (key : colkey)
  : exn + Z :=
  match find (fun r : example_row => String.eqb r.1.1 "All returns, total")
          data with
  | None => inl KeyError
  | Some r =>
      match find (fun kv : colkey * Z => bool_decide (kv.1 = key)) r.2 with
      | Some kv => inr kv.2
      | None => inl KeyError
      end
  end.

(** Table 1.4 with 22 rows: the totals row holds 10, 20, ... under the
    columns of [TABLE14COLS], and row [k] has wage amount [k]. *)
Definition table14_sheet : list example_row :=
  ("All returns, total", 0,
   imap (fun i (col : string * colkey) => (col.2, 10 * (Z.of_nat i + 1)))
     TABLE14COLS)
  :: map (fun k => ("", k, [])) (seqZ 1 21).

Definition read14 (fname : string) : exn + list example_row :=
  inr table14_sheet.

(** Tables 1.2 and 2.1 reduced to the cells the script reads. *)
Definition read12 (fname : string) : exn + unit := inr tt.

Definition filers (data : unit) (col : string) : exn + Z :=
  inr (Z.of_nat (String.length col)).

Definition read21 (fname : string) : exn + unit := inr tt.

Definition paid (data : unit) (un : string) : exn + Z := inr 7.

Definition totals : gmap string Z :=
  match add_columns example_row lookup_total (take 21 table14_sheet)
          TABLE14COLS ∅ with
  | inr values => values
  | inl _ => ∅
  end.

End SoiExamples.

(** * Properties *)

(** ** Prefix matching *)
Section Startswith.
Import Py.

Lemma startswith_app (pre t : string) : startswith (pre ++ t) pre = true.
Proof.
  induction pre as [|p pre IH]; simpl; [reflexivity|].
  rewrite Ascii.eqb_refl. exact IH.
Qed.

Lemma startswith_inv (s pre : string) :
  startswith s pre = true → ∃ t, s = pre ++ t.
Proof.
  revert s. induction pre as [|p pre IH]; intros s H; simpl in *.
  - exists s. reflexivity.
  - destruct s as [|c s]; [discriminate|].
    destruct (Ascii.eqb_spec c p) as [->|]; [|discriminate].
    destruct (IH _ H) as [t ->]. exists t. reflexivity.
Qed.

Lemma startswith_iff (s pre : string) :
  startswith s pre = true ↔ ∃ t, s = pre ++ t.
Proof.
  split; [apply startswith_inv|].
  intros [t ->]. apply startswith_app.
Qed.
End Startswith.

(** Unfolds the trace monad so that a run computes. *)
Ltac io_unfold :=
  unfold mbind, mret, io_bind, io_ret, Py.bind, Py.lift, Py.ret, Py.raise,
    Py.stderr_write, Py.emit, Py.outcome, Py.trace in *.

(** ** Validation of the sheet against [CBO_ROWS] *)
Section Validation.
Import Py Cbo.
Variable num : Type.
Variable str_num : num → string.


Lemma check_rows_cons cfg cbolabel cname cdict rest :
  check_rows cfg cbolabel ((cname, cdict) :: rest) =
  match read_cbo_label cfg cbolabel (row cdict) with
  | inl e => ([], inl e)
  | inr None => ([], inl AttributeError)
  | inr (Some alabel) =>
      if startswith alabel (label cdict) then check_rows cfg cbolabel rest
      else ([StderrWrite ("READ: " ++ ("for " ++ cname ++ " expected label is "
               ++ label cdict ++ " but found " ++ alabel) ++ nl)], inr None)
  end.
Proof.
  simpl. io_unfold.
  destruct (read_cbo_label cfg cbolabel (row cdict)) as [e|[alabel|]];
    try reflexivity.
  destruct (startswith alabel (label cdict)); simpl; [|reflexivity].
  destruct (check_rows cfg cbolabel rest) as [t r]. reflexivity.
Qed.

Lemma check_rows_skip cfg cbolabel pre rest :
  Forall (field_ok cfg cbolabel) pre →
  check_rows cfg cbolabel (pre ++ rest)%list = check_rows cfg cbolabel rest.
Proof.
  induction 1 as [|[cname cdict] pre [alabel [Hl Hs]] _ IH]; [reflexivity|].
  change (((cname, cdict) :: pre) ++ rest)%list
    with ((cname, cdict) :: (pre ++ rest))%list.
  rewrite check_rows_cons. simpl in Hl, Hs. rewrite Hl, Hs. exact IH.
Qed.

Lemma check_cbo_year_cases cfg :
  (ydiff cfg = cdiff cfg ∧ check_cbo_year cfg = ([], inr 0))
  ∨ (ydiff cfg ≠ cdiff cfg
     ∧ check_cbo_year cfg =
       ([StderrWrite ("STRUCT: " ++ "CBO_YEAR contents are inconsistent" ++ nl)],
        inr 1)).
Proof.
  unfold check_cbo_year. fold (ydiff cfg) (cdiff cfg).
  destruct (Z.eqb_spec (ydiff cfg) (cdiff cfg)); [left|right]; split; auto.
Qed.

Lemma read_check_reaches_rows cfg pol fname cbodf cbolabel :
  years_ok cfg pol →
  fill_labels num str_num cbodf (CBO_STR_COLS cfg) ∅ = inr cbolabel →
  read_check_spreadsheet num str_num cfg pol fname (Some cbodf) =
  match check_rows cfg cbolabel (CBO_ROWS cfg) with
  | (t, inl e) => (ReadExcel fname :: t, inl e)
  | (t, inr None) => (ReadExcel fname :: t, inr None)
  | (t, inr (Some _)) => (ReadExcel fname :: t, inr (Some cbodf))
  end.
Proof.
  intros (Hy & Hk & Hb) Hfill.
  unfold read_check_spreadsheet.
  destruct (check_cbo_year_cases cfg) as [[_ E]|[_ E]];
    rewrite E in Hy |- *; [|discriminate Hy].
  io_unfold. simpl. rewrite Hk, Hb, Hfill. simpl.
  destruct (check_rows cfg cbolabel (CBO_ROWS cfg)) as [t [e|[u|]]];
    simpl; rewrite ?app_nil_r; reflexivity.
Qed.

(** C1. [read_check_spreadsheet] checks the [CBO_ROWS] entries in order.
    At the first entry whose row resolves to a label that does not start
    with the expected label it stops: it writes one diagnostic naming the
    entry, the expected label and the label found, and returns [None],
    never the sheet. The entries after it are not looked at: the run is
    the same whatever follows. *)
Theorem validate_stops_at_first_mismatch
    (cfg : config) (pol : policy) (fname : string) (cbodf : DataFrame num)
    (cbolabel : gmap Z (list string))
    (pre : list (string * cbo_row)) (cname : string) (cdict : cbo_row)
    (suf : list (string * cbo_row)) (alabel : string) :
  years_ok cfg pol →
  fill_labels num str_num cbodf (CBO_STR_COLS cfg) ∅ = inr cbolabel →
  CBO_ROWS cfg = (pre ++ (cname, cdict) :: suf)%list →
  Forall (field_ok cfg cbolabel) pre →
  read_cbo_label cfg cbolabel (row cdict) = inr (Some alabel) →
  startswith alabel (label cdict) = false →
  read_check_spreadsheet num str_num cfg pol fname (Some cbodf) =
    ([ReadExcel fname;
      StderrWrite ("READ: " ++ ("for " ++ cname ++ " expected label is "
                     ++ label cdict ++ " but found " ++ alabel) ++ nl)],
     inr None)
  ∧ ∀ suf' : list (string * cbo_row),
      check_rows cfg cbolabel (pre ++ (cname, cdict) :: suf')%list =
      check_rows cfg cbolabel (pre ++ (cname, cdict) :: suf)%list.
Proof.
  intros Hy Hfill Hrows Hpre Hl Hs.
  assert (Hstop : ∀ s, check_rows cfg cbolabel (pre ++ (cname, cdict) :: s)%list
    = ([StderrWrite ("READ: " ++ ("for " ++ cname ++ " expected label is "
          ++ label cdict ++ " but found " ++ alabel) ++ nl)], inr None)).
  { intros s. rewrite check_rows_skip by assumption.
    rewrite check_rows_cons, Hl, Hs. reflexivity. }
  split.
  - rewrite (read_check_reaches_rows _ _ _ _ _ Hy Hfill), Hrows, Hstop.
    reflexivity.
  - intros suf'. rewrite !Hstop. reflexivity.
Qed.

(** C4. A found label is accepted exactly when it starts with the
    expected label, character for character: nothing is folded or
    normalised. An accepted field lets the loop go on, a rejected one
    ends it with the diagnostic. "Chained CPI-U index" is not accepted
    for "Chained consumer price index", nor is the expected label in
    lower case. *)
Theorem label_match_is_exact_prefix
    (cfg : config) (cbolabel : gmap Z (list string)) (cname : string)
    (cdict : cbo_row) (rest : list (string * cbo_row)) (alabel : string) :
  read_cbo_label cfg cbolabel (row cdict) = inr (Some alabel) →
  (startswith alabel (label cdict) = true ↔ ∃ t, alabel = label cdict ++ t)
  ∧ check_rows cfg cbolabel ((cname, cdict) :: rest) =
      (if startswith alabel (label cdict)
       then check_rows cfg cbolabel rest
       else ([StderrWrite ("READ: " ++ ("for " ++ cname
                 ++ " expected label is " ++ label cdict
                 ++ " but found " ++ alabel) ++ nl)], inr None))
  ∧ (alabel = "Chained CPI-U index" →
     label cdict = "Chained consumer price index" →
     outcome (check_rows cfg cbolabel ((cname, cdict) :: rest)) = inr None)
  ∧ startswith "Chained CPI-U index" "Chained consumer price index" = false
  ∧ startswith "chained consumer price index" "Chained consumer price index"
    = false.
Proof.
  intros Hl. split; [apply startswith_iff|].
  rewrite check_rows_cons, Hl. split; [reflexivity|].
  split; [|split; reflexivity].
  intros -> ->. reflexivity.
Qed.

(** A field whose row has no label makes the loop call [startswith] on
    [None]. *)
Lemma check_rows_no_label cfg cbolabel pre cname cdict suf :
  Forall (field_ok cfg cbolabel) pre →
  read_cbo_label cfg cbolabel (row cdict) = inr None →
  check_rows cfg cbolabel (pre ++ (cname, cdict) :: suf)%list
  = ([], inl AttributeError).
Proof.
  intros Hpre Hl. rewrite check_rows_skip by assumption.
  rewrite check_rows_cons, Hl. reflexivity.
Qed.

Lemma read_check_no_label cfg pol fname cbodf cbolabel pre cname cdict suf :
  years_ok cfg pol →
  fill_labels num str_num cbodf (CBO_STR_COLS cfg) ∅ = inr cbolabel →
  CBO_ROWS cfg = (pre ++ (cname, cdict) :: suf)%list →
  Forall (field_ok cfg cbolabel) pre →
  read_cbo_label cfg cbolabel (row cdict) = inr None →
  read_check_spreadsheet num str_num cfg pol fname (Some cbodf)
  = ([ReadExcel fname], inl AttributeError).
Proof.
  intros Hy Hfill Hrows Hpre Hl.
  rewrite (read_check_reaches_rows _ _ _ _ _ Hy Hfill), Hrows.
  rewrite check_rows_no_label by assumption. reflexivity.
Qed.

End Validation.

Section ValidationRuns.
Import Py Cbo Examples.

Lemma years_ok_2024 : years_ok cbo_2024 pol.
Proof. repeat split. Qed.

Lemma validate_stops_at_first_mismatch_witness :
  read_check_spreadsheet Z str_int cbo_2024 pol "cbo.xlsx"
    (Some near_miss_sheet) =
    ([ReadExcel "cbo.xlsx";
      StderrWrite ("READ: " ++ ("for " ++ "c_cpiu" ++ " expected label is "
                     ++ "Chained consumer price index" ++ " but found "
                     ++ "Chained CPI-U index") ++ nl)],
     inr None)
  ∧ ∀ suf' : list (string * cbo_row),
      check_rows cbo_2024 (labels_of near_miss_sheet)
        ([("year", {| row := 8; label := "Tax Year"; pct := false |})]
         ++ ("c_cpiu", {| row := 158; label := "Chained consumer price index";
                          pct := false |}) :: suf')%list =
      check_rows cbo_2024 (labels_of near_miss_sheet)
        ([("year", {| row := 8; label := "Tax Year"; pct := false |})]
         ++ ("c_cpiu", {| row := 158; label := "Chained consumer price index";
                          pct := false |}) :: [])%list.
Proof.
  apply (validate_stops_at_first_mismatch Z str_int cbo_2024 pol "cbo.xlsx"
           near_miss_sheet (labels_of near_miss_sheet)
           [("year", {| row := 8; label := "Tax Year"; pct := false |})]
           "c_cpiu"
           {| row := 158; label := "Chained consumer price index";
              pct := false |}
           [] "Chained CPI-U index").
  - exact years_ok_2024.
  - vm_compute. reflexivity.
  - reflexivity.
  - constructor; [|constructor].
    exists "Tax Year". split; vm_compute; reflexivity.
  - vm_compute. reflexivity.
  - vm_compute. reflexivity.
Defined.

End ValidationRuns.

(** ** The consistency check on [CBO_YEAR] *)
Section YearCheck.
Import Py Cbo Examples.
Variable num : Type.
Variable str_num : num → string.

Lemma read_check_inconsistent cfg pol fname file :
  ydiff cfg ≠ cdiff cfg →
  read_check_spreadsheet num str_num cfg pol fname file =
  ([StderrWrite ("STRUCT: " ++ "CBO_YEAR contents are inconsistent" ++ nl)],
   inr None).
Proof.
  intros Hne. unfold read_check_spreadsheet.
  destruct (check_cbo_year_cases cfg) as [[E _]|[_ E]]; [contradiction|].
  rewrite E. reflexivity.
Qed.

(** C7. [check_cbo_year] returns 0 exactly when the span of years equals
    the span of column indices. [read_check_spreadsheet] runs it first:
    on an inconsistent [CBO_YEAR] it writes the diagnostic and returns
    [None] without calling [read_excel], whatever the file holds; a run
    that does call [read_excel] had a consistent [CBO_YEAR]. The
    structure 2021/E to 2034/R passes (13 = 13); with Q as last column it
    fails. *)
Theorem year_check_gates_reading (cfg : config) :
  (outcome (check_cbo_year cfg) = inr 0 ↔ ydiff cfg = cdiff cfg)
  ∧ (∀ pol fname file,
       ydiff cfg ≠ cdiff cfg →
       read_check_spreadsheet num str_num cfg pol fname file =
       ([StderrWrite ("STRUCT: " ++ "CBO_YEAR contents are inconsistent"
                      ++ nl)], inr None))
  ∧ (∀ pol fname file f,
       ReadExcel f ∈ trace (read_check_spreadsheet num str_num cfg pol
                              fname file) →
       ydiff cfg = cdiff cfg)
  ∧ (ydiff cbo_2024 = 13 ∧ cdiff cbo_2024 = 13
     ∧ check_cbo_year cbo_2024 = ([], inr 0))
  ∧ (ydiff cbo_2024_Q = 13 ∧ cdiff cbo_2024_Q = 12
     ∧ outcome (check_cbo_year cbo_2024_Q) = inr 1).
Proof.
  split; [|split; [|split; [|split]]].
  - destruct (check_cbo_year_cases cfg) as [[E R]|[E R]]; rewrite R.
    + split; auto.
    + split; [discriminate|contradiction].
  - intros pol fname file. apply read_check_inconsistent.
  - intros pol fname file f Hin.
    destruct (Z.eq_dec (ydiff cfg) (cdiff cfg)) as [|Hne]; [assumption|].
    rewrite (read_check_inconsistent _ pol fname file Hne) in Hin.
    apply list_elem_of_singleton in Hin. discriminate Hin.
  - repeat split.
  - repeat split.
Qed.

End YearCheck.

Section YearCheckRuns.
Import Py Cbo Examples.

Lemma year_check_gates_reading_witness :
  read_check_spreadsheet Z str_int cbo_2024_Q pol "cbo.xlsx"
    (Some good_sheet) =
  ([StderrWrite ("STRUCT: " ++ "CBO_YEAR contents are inconsistent" ++ nl)],
   inr None).
Proof.
  apply (proj1 (proj2 (year_check_gates_reading Z str_int cbo_2024_Q))).
  vm_compute. discriminate.
Defined.

End YearCheckRuns.

(** ** Resolving a row's label *)
Section Labels.
Import Py Cbo Examples.

Lemma scan_label_cons cbolabel ridx c rest :
  scan_label cbolabel ridx (c :: rest) =
  match label_cell cbolabel c ridx with
  | inl e => inl e
  | inr l => if String.eqb l "nan" then scan_label cbolabel ridx rest
             else inr (Some l)
  end.
Proof.
  unfold label_cell. simpl.
  destruct (cbolabel !! c) as [column|]; [|reflexivity].
  destruct (getitem column ridx) as [e|l]; [reflexivity|].
  destruct (String.eqb l "nan"); reflexivity.
Qed.

Lemma scan_label_first cbolabel ridx pre c suf l :
  Forall (fun k => label_cell cbolabel k ridx = inr "nan") pre →
  label_cell cbolabel c ridx = inr l →
  l ≠ "nan" →
  scan_label cbolabel ridx (pre ++ c :: suf)%list = inr (Some l).
Proof.
  intros Hpre Hc Hl. induction Hpre as [|k pre Hk _ IH].
  - change ([] ++ c :: suf)%list with (c :: suf).
    rewrite scan_label_cons, Hc.
    destruct (String.eqb_spec l "nan"); [contradiction|reflexivity].
  - change ((k :: pre) ++ c :: suf)%list with (k :: (pre ++ c :: suf))%list.
    rewrite scan_label_cons, Hk. exact IH.
Qed.

Lemma label_cell_agree (lab1 lab2 : gmap Z (list string)) k ridx :
  lab2 !! k = lab1 !! k → label_cell lab2 k ridx = label_cell lab1 k ridx.
Proof. unfold label_cell. intros ->. reflexivity. Qed.

(** C8. [read_cbo_label] scans [CBO_STR_COLS] in order (columns 0, 1, 2,
    3 in the script) and returns the first cell of the row that is not
    "nan". Once a column holds such a label, the columns after it are
    not consulted: a dictionary that agrees on the columns up to the
    label and differs in any way on the later ones gives the same
    label. *)
Theorem first_nonempty_label_wins
    (cfg : config) (lab1 lab2 : gmap Z (list string)) (rw : Z)
    (pre : list Z) (c : Z) (suf : list Z) (l : string) :
  CBO_STR_COLS cfg = (pre ++ c :: suf)%list →
  Forall (fun k => label_cell lab1 k (rindex rw) = inr "nan") pre →
  label_cell lab1 c (rindex rw) = inr l →
  l ≠ "nan" →
  (∀ k, k ∈ (pre ++ [c])%list → lab2 !! k = lab1 !! k) →
  read_cbo_label cfg lab1 rw = inr (Some l)
  ∧ read_cbo_label cfg lab2 rw = inr (Some l)
  ∧ CBO_STR_COLS cbo_2024 = [0; 1; 2; 3].
Proof.
  intros Hcols Hpre Hc Hl Hagree. unfold read_cbo_label. rewrite Hcols.
  split; [|split; [|reflexivity]].
  - apply scan_label_first; assumption.
  - apply scan_label_first; [| |assumption].
    + rewrite Forall_forall in Hpre |- *. intros k Hk.
      rewrite (label_cell_agree lab1 lab2).
      * apply Hpre, Hk.
      * apply Hagree. apply elem_of_app. left. exact Hk.
    + rewrite (label_cell_agree lab1 lab2); [assumption|].
      apply Hagree. apply elem_of_app. right. apply list_elem_of_singleton.
      reflexivity.
Qed.

Lemma first_nonempty_label_wins_witness :
  read_cbo_label cbo_2024
    {[ 0 := ["nan"; "nan"]; 1 := ["nan"; "Tax Year"]; 2 := ["x"; "later"];
       3 := ["nan"; "nan"] ]} 2
  = inr (Some "Tax Year")
  ∧ read_cbo_label cbo_2024
      {[ 0 := ["nan"; "nan"]; 1 := ["nan"; "Tax Year"]; 2 := [];
         3 := ["nan"; "other"] ]} 2
    = inr (Some "Tax Year")
  ∧ CBO_STR_COLS cbo_2024 = [0; 1; 2; 3].
Proof.
  apply (first_nonempty_label_wins cbo_2024 _ _ 2 [0] 1 [2; 3] "Tax Year").
  - reflexivity.
  - constructor; [vm_compute; reflexivity|constructor].
  - vm_compute. reflexivity.
  - discriminate.
  - intros k Hk. apply elem_of_cons in Hk as [->|Hk]; [reflexivity|].
    apply list_elem_of_singleton in Hk as ->. reflexivity.
Defined.

(** C6, as the code behaves. When row 8 of the sheet has no label in
    columns A to D, [read_cbo_label] returns [None] and
    [read_check_spreadsheet] ends in [AttributeError]: no diagnostic is
    written and nothing is returned. *)
Theorem blank_label_row_raises :
  read_cbo_label cbo_2024 (labels_of blank_label_sheet) 8 = inr None
  ∧ read_check_spreadsheet Z str_int cbo_2024 pol "cbo.xlsx"
      (Some blank_label_sheet)
    = ([ReadExcel "cbo.xlsx"], inl AttributeError).
Proof.
  assert (H : read_cbo_label cbo_2024 (labels_of blank_label_sheet) 8
              = inr None) by (vm_compute; reflexivity).
  split; [exact H|].
  apply (read_check_no_label Z str_int cbo_2024 pol "cbo.xlsx"
           blank_label_sheet (labels_of blank_label_sheet) []
           "year" {| row := 8; label := "Tax Year"; pct := false |}
           [("c_cpiu", {| row := 158;
                          label := "Chained consumer price index";
                          pct := false |})]).
  - exact years_ok_2024.
  - vm_compute. reflexivity.
  - reflexivity.
  - constructor.
  - exact H.
Qed.

End Labels.

(** ** Looking a value up by name and year *)
Section Lookup.
Import Py Cbo Examples.
Variable num : Type.

Lemma of_ascii_bounds (a : ascii) : 0 ≤ of_ascii a < 256.
Proof.
  unfold of_ascii. pose proof (N_ascii_bounded a). lia.
Qed.

Lemma cdiff_letters cfg :
  cdiff cfg = of_ascii (col (last (CBO_YEAR cfg)))
              - of_ascii (col (first (CBO_YEAR cfg))).
Proof. unfold cdiff, cindex, ord. lia. Qed.

(** Under a consistent [CBO_YEAR] the letter of an in-range year is a
    character, [yr - first year] places after the first column. *)
Lemma chr_year_letter cfg yr :
  ydiff cfg = cdiff cfg →
  year (first (CBO_YEAR cfg)) ≤ yr ≤ year (last (CBO_YEAR cfg)) →
  chr (ord (of_ascii (col (first (CBO_YEAR cfg)))) + yr
       - year (first (CBO_YEAR cfg)))
  = inr (of_ascii (col (first (CBO_YEAR cfg)))
         + (yr - year (first (CBO_YEAR cfg)))).
Proof.
  intros Hc Hy. rewrite cdiff_letters in Hc. unfold ydiff in Hc.
  pose proof (of_ascii_bounds (col (first (CBO_YEAR cfg)))).
  pose proof (of_ascii_bounds (col (last (CBO_YEAR cfg)))).
  unfold chr, ord.
  replace (of_ascii (col (first (CBO_YEAR cfg))) + yr
           - year (first (CBO_YEAR cfg)))
    with (of_ascii (col (first (CBO_YEAR cfg)))
          + (yr - year (first (CBO_YEAR cfg)))) by lia.
  destruct (Z.leb_spec 0 (of_ascii (col (first (CBO_YEAR cfg)))
                          + (yr - year (first (CBO_YEAR cfg))))); [|lia].
  destruct (Z.ltb_spec (of_ascii (col (first (CBO_YEAR cfg)))
                        + (yr - year (first (CBO_YEAR cfg)))) 1114112);
    [reflexivity|lia].
Qed.

(** The three argument tests of [cbo_value], and what follows them. *)
Lemma cbo_value_unfold cfg (cbodf : DataFrame num) name yr :
  cbo_value cfg cbodf name yr =
  let first_year := year (first (CBO_YEAR cfg)) in
  let last_year := year (last (CBO_YEAR cfg)) in
  let complaints :=
    (match rows_get (CBO_ROWS cfg) name with
     | Some _ => []
     | None => [StderrWrite ("CBO: " ++ ("name " ++ name
                  ++ " not in CBO_ROWS data structure") ++ nl)]
     end
     ++ (if yr <? first_year
         then [StderrWrite ("CBO: " ++ ("year " ++ str_int yr
                  ++ " less than first year " ++ str_int first_year) ++ nl)]
         else [])
     ++ (if yr >? last_year
         then [StderrWrite ("CBO: " ++ ("year " ++ str_int yr
                  ++ " greater than last year " ++ str_int last_year) ++ nl)]
         else []))%list in
  match rows_get (CBO_ROWS cfg) name with
  | Some spec =>
      if (yr <? first_year) || (yr >? last_year) then (complaints, inr VNone)
      else
        ([], match chr (ord (of_ascii (col (first (CBO_YEAR cfg)))) + yr
                        - first_year) with
             | inl e => inl e
             | inr letter =>
                 match iat cbodf (rindex (row spec)) (cindex letter) with
                 | inl e => inl e
                 | inr val =>
                     if pct spec then
                       match val with
                       | CStr _ => inl TypeError
                       | _ => inr (VPct val)
                       end
                     else inr (VCell val)
                 end
             end)
  | None => (complaints, inr VNone)
  end.
Proof.
  unfold cbo_value. cbv zeta.
  destruct (rows_get (CBO_ROWS cfg) name) as [spec|];
    destruct (yr <? year (first (CBO_YEAR cfg)));
    destruct (yr >? year (last (CBO_YEAR cfg)));
    try reflexivity.
  io_unfold. simpl.
  destruct (chr _) as [e|letter]; [reflexivity|]. simpl.
  destruct (iat cbodf _ _) as [e|val]; [reflexivity|].
  destruct (pct spec); [destruct val|]; reflexivity.
Qed.

Lemma cbo_value_in_range cfg (cbodf : DataFrame num) name yr spec :
  rows_get (CBO_ROWS cfg) name = Some spec →
  year (first (CBO_YEAR cfg)) ≤ yr ≤ year (last (CBO_YEAR cfg)) →
  ydiff cfg = cdiff cfg →
  cbo_value cfg cbodf name yr =
  ([], match iat cbodf (row spec - 1)
               (of_ascii (col (first (CBO_YEAR cfg))) - of_ascii "A"
                + (yr - year (first (CBO_YEAR cfg)))) with
       | inl e => inl e
       | inr val =>
           if pct spec then
             match val with
             | CStr _ => inl TypeError
             | _ => inr (VPct val)
             end
           else inr (VCell val)
       end).
Proof.
  intros Hn Hy Hc. rewrite cbo_value_unfold. cbv zeta. rewrite Hn.
  destruct (Z.ltb_spec yr (year (first (CBO_YEAR cfg)))); [lia|].
  destruct (Z.gtb_spec yr (year (last (CBO_YEAR cfg)))); [lia|].
  simpl. rewrite (chr_year_letter cfg yr Hc Hy).
  replace (cindex (of_ascii (col (first (CBO_YEAR cfg)))
                   + (yr - year (first (CBO_YEAR cfg)))))
    with (of_ascii (col (first (CBO_YEAR cfg))) - of_ascii "A"
          + (yr - year (first (CBO_YEAR cfg))))
    by (unfold cindex, ord; lia).
  reflexivity.
Qed.

(** C2. For a name in [CBO_ROWS] and a year between the first and the
    last, under a consistent [CBO_YEAR], the column letter is the first
    column's letter moved [year - first year] places, and [cbo_value]
    reads the one cell whose row index is the entry's row number minus
    one and whose column index is the distance of that letter from A:
    what it returns is decided by that cell alone. For the script's
    structure a query for 2021 reads column index 4, which is E, and a
    query for 2034 reads column index 17, which is R. *)
Theorem cbo_value_reads_year_column
    (cfg : config) (cbodf : DataFrame num) (name : string) (yr : Z)
    (spec : cbo_row) :
  rows_get (CBO_ROWS cfg) name = Some spec →
  year (first (CBO_YEAR cfg)) ≤ yr ≤ year (last (CBO_YEAR cfg)) →
  ydiff cfg = cdiff cfg →
  chr (ord (of_ascii (col (first (CBO_YEAR cfg)))) + yr
       - year (first (CBO_YEAR cfg)))
    = inr (of_ascii (col (first (CBO_YEAR cfg)))
           + (yr - year (first (CBO_YEAR cfg))))
  ∧ cbo_value cfg cbodf name yr =
      ([], match iat cbodf (row spec - 1)
                   (of_ascii (col (first (CBO_YEAR cfg))) - of_ascii "A"
                    + (yr - year (first (CBO_YEAR cfg)))) with
           | inl e => inl e
           | inr val =>
               if pct spec then
                 match val with
                 | CStr _ => inl TypeError
                 | _ => inr (VPct val)
                 end
               else inr (VCell val)
           end)
  ∧ (cfg = cbo_2024 →
     (yr = 2021 →
      of_ascii (col (first (CBO_YEAR cfg)))
      + (yr - year (first (CBO_YEAR cfg))) = of_ascii "E"
      ∧ cbo_value cfg cbodf name yr =
          ([], match iat cbodf (row spec - 1) 4 with
               | inl e => inl e
               | inr val => inr (VCell val)
               end))
     ∧ (yr = 2034 →
        of_ascii (col (first (CBO_YEAR cfg)))
        + (yr - year (first (CBO_YEAR cfg))) = of_ascii "R"
        ∧ cbo_value cfg cbodf name yr =
            ([], match iat cbodf (row spec - 1) 17 with
                 | inl e => inl e
                 | inr val => inr (VCell val)
                 end))).
Proof.
  intros Hn Hy Hc. split; [|split].
  - apply chr_year_letter; assumption.
  - apply cbo_value_in_range; assumption.
  - intros ->.
    assert (Hp : pct spec = false).
    { unfold cbo_2024 in Hn. cbn [CBO_ROWS rows_get] in Hn.
      destruct (String.eqb "year" name); [injection Hn as <-; reflexivity|].
      destruct (String.eqb "c_cpiu" name); [injection Hn as <-; reflexivity|].
      discriminate Hn. }
    split; intros ->; (split; [reflexivity|]);
      rewrite (cbo_value_in_range _ _ _ _ _ Hn Hy Hc), Hp; reflexivity.
Qed.

(** C3. When the name is not in [CBO_ROWS], or the year is below the
    first year or above the last one, [cbo_value] returns [None]: it
    writes one diagnostic per failed test, reads no cell (the run is the
    same for every sheet) and returns neither a cell nor a number. This
    holds for the years 2020 and 2035 of the script's structure. *)
Theorem cbo_value_rejects_bad_request
    (cfg : config) (cbodf : DataFrame num) (name : string) (yr : Z) :
  rows_get (CBO_ROWS cfg) name = None
  ∨ yr < year (first (CBO_YEAR cfg))
  ∨ year (last (CBO_YEAR cfg)) < yr →
  outcome (cbo_value cfg cbodf name yr) = inr VNone
  ∧ trace (cbo_value cfg cbodf name yr) =
      (match rows_get (CBO_ROWS cfg) name with
       | Some _ => []
       | None => [StderrWrite ("CBO: " ++ ("name " ++ name
                    ++ " not in CBO_ROWS data structure") ++ nl)]
       end
       ++ (if yr <? year (first (CBO_YEAR cfg))
           then [StderrWrite ("CBO: " ++ ("year " ++ str_int yr
                    ++ " less than first year "
                    ++ str_int (year (first (CBO_YEAR cfg)))) ++ nl)]
           else [])
       ++ (if yr >? year (last (CBO_YEAR cfg))
           then [StderrWrite ("CBO: " ++ ("year " ++ str_int yr
                    ++ " greater than last year "
                    ++ str_int (year (last (CBO_YEAR cfg)))) ++ nl)]
           else []))%list
  ∧ trace (cbo_value cfg cbodf name yr) ≠ []
  ∧ (∀ other : DataFrame num,
       cbo_value cfg other name yr = cbo_value cfg cbodf name yr)
  ∧ outcome (cbo_value cbo_2024 cbodf name 2020) = inr VNone
  ∧ outcome (cbo_value cbo_2024 cbodf name 2035) = inr VNone.
Proof.
  intros Hbad.
  assert (Hrun : ∀ df : DataFrame num,
    cbo_value cfg df name yr =
    ((match rows_get (CBO_ROWS cfg) name with
      | Some _ => []
      | None => [StderrWrite ("CBO: " ++ ("name " ++ name
                   ++ " not in CBO_ROWS data structure") ++ nl)]
      end
      ++ (if yr <? year (first (CBO_YEAR cfg))
          then [StderrWrite ("CBO: " ++ ("year " ++ str_int yr
                   ++ " less than first year "
                   ++ str_int (year (first (CBO_YEAR cfg)))) ++ nl)]
          else [])
      ++ (if yr >? year (last (CBO_YEAR cfg))
          then [StderrWrite ("CBO: " ++ ("year " ++ str_int yr
                   ++ " greater than last year "
                   ++ str_int (year (last (CBO_YEAR cfg)))) ++ nl)]
          else []))%list, inr VNone)).
  { intros df. rewrite cbo_value_unfold. cbv zeta.
    destruct (rows_get (CBO_ROWS cfg) name) as [spec|]; [|reflexivity].
    destruct (Z.ltb_spec yr (year (first (CBO_YEAR cfg))));
      destruct (Z.gtb_spec yr (year (last (CBO_YEAR cfg))));
      try reflexivity.
    destruct Hbad as [Hbad|[Hbad|Hbad]]; [discriminate|lia|lia]. }
  split; [|split; [|split; [|split; [|split]]]].
  - rewrite Hrun. reflexivity.
  - rewrite Hrun. reflexivity.
  - rewrite Hrun. unfold trace, fst.
    destruct (rows_get (CBO_ROWS cfg) name) as [spec|]; [|discriminate].
    destruct (Z.ltb_spec yr (year (first (CBO_YEAR cfg)))); [discriminate|].
    destruct (Z.gtb_spec yr (year (last (CBO_YEAR cfg)))); [discriminate|].
    destruct Hbad as [Hbad|[Hbad|Hbad]]; [discriminate|lia|lia].
  - intros other. rewrite !Hrun. reflexivity.
  - rewrite cbo_value_unfold. cbv zeta.
    destruct (rows_get (CBO_ROWS cbo_2024) name); reflexivity.
  - rewrite cbo_value_unfold. cbv zeta.
    destruct (rows_get (CBO_ROWS cbo_2024) name); reflexivity.
Qed.

(** C5, as the code behaves. For a name in [CBO_ROWS] whose entry has no
    "pct" key (as every entry of the script has) and a year in range,
    under a consistent [CBO_YEAR], when the addressed cell lies in the
    sheet [cbo_value] returns that cell as it is stored, whatever it
    holds: the cell is not tested for being a number, and a text or an
    empty cell is returned like any other, with no error signalled. *)
Theorem cbo_value_returns_cell_untested
    (cfg : config) (cbodf : DataFrame num) (name : string) (yr : Z)
    (spec : cbo_row) (c : cell num) :
  rows_get (CBO_ROWS cfg) name = Some spec →
  pct spec = false →
  year (first (CBO_YEAR cfg)) ≤ yr ≤ year (last (CBO_YEAR cfg)) →
  ydiff cfg = cdiff cfg →
  iat cbodf (row spec - 1)
    (of_ascii (col (first (CBO_YEAR cfg))) - of_ascii "A"
     + (yr - year (first (CBO_YEAR cfg)))) = inr c →
  cbo_value cfg cbodf name yr = ([], inr (VCell c))
  ∧ Forall (fun item : string * cbo_row => pct item.2 = false)
      (CBO_ROWS cbo_2024).
Proof.
  intros Hn Hp Hy Hc Hcell. split; [|repeat constructor].
  rewrite (cbo_value_in_range _ _ _ _ _ Hn Hy Hc), Hcell, Hp. reflexivity.
Qed.

End Lookup.

Section LookupRuns.
Import Py Cbo Examples.

Lemma label_match_is_exact_prefix_witness :
  outcome (check_rows cbo_2024 (labels_of near_miss_sheet)
             [("c_cpiu", {| row := 158;
                            label := "Chained consumer price index";
                            pct := false |})])
  = inr None.
Proof.
  apply (label_match_is_exact_prefix cbo_2024 (labels_of near_miss_sheet)
           "c_cpiu"
           {| row := 158; label := "Chained consumer price index";
              pct := false |}
           [] "Chained CPI-U index");
    vm_compute; reflexivity.
Defined.

Lemma cbo_value_reads_year_column_witness :
  cbo_value cbo_2024 good_sheet "c_cpiu" 2034 = ([], inr (VCell (CNum 207)))
  ∧ cbo_value cbo_2024 good_sheet "c_cpiu" 2021 = ([], inr (VCell (CNum 145))).
Proof.
  split.
  - rewrite (proj1 (proj2 (cbo_value_reads_year_column Z cbo_2024 good_sheet
                             "c_cpiu" 2034
                             {| row := 158;
                                label := "Chained consumer price index";
                                pct := false |}
                             eq_refl
                             (conj (Zle_bool_imp_le 2021 2034 eq_refl)
                                   (Z.le_refl 2034))
                             eq_refl))).
    vm_compute. reflexivity.
  - rewrite (proj1 (proj2 (cbo_value_reads_year_column Z cbo_2024 good_sheet
                             "c_cpiu" 2021
                             {| row := 158;
                                label := "Chained consumer price index";
                                pct := false |}
                             eq_refl
                             (conj (Z.le_refl 2021)
                                   (Zle_bool_imp_le 2021 2034 eq_refl))
                             eq_refl))).
    vm_compute. reflexivity.
Defined.

Lemma cbo_value_rejects_bad_request_witness :
  outcome (cbo_value cbo_2024 good_sheet "c_cpiu" 2035) = inr VNone.
Proof.
  apply (cbo_value_rejects_bad_request Z cbo_2024 good_sheet "c_cpiu" 2035).
  right. right. simpl. lia.
Defined.

(** C5 as stated fails: cell E158 (row index 157, column index 4) holds
    the text "n.a.", and the lookup of 2021 returns that text instead of
    signalling an error. *)
Lemma text_cell_is_returned :
  iat text_cell_sheet 157 4 = inr (CStr "n.a.")
  ∧ cbo_value cbo_2024 text_cell_sheet "c_cpiu" 2021
    = ([], inr (VCell (CStr "n.a."))).
Proof. split; vm_compute; reflexivity. Qed.

Lemma cbo_value_returns_cell_untested_witness :
  cbo_value cbo_2024 text_cell_sheet "c_cpiu" 2021
    = ([], inr (VCell (CStr "n.a.")))
  ∧ Forall (fun item : string * cbo_row => pct item.2 = false)
      (CBO_ROWS cbo_2024).
Proof.
  apply (cbo_value_returns_cell_untested Z cbo_2024 text_cell_sheet
           "c_cpiu" 2021
           {| row := 158; label := "Chained consumer price index";
              pct := false |} (CStr "n.a.")).
  - reflexivity.
  - reflexivity.
  - simpl. lia.
  - reflexivity.
  - vm_compute. reflexivity.
Defined.

End LookupRuns.

(** ** Wage buckets *)
Section WageBuckets.
Import Py Soi Examples.


Lemma wrap64_add_l a x : wrap64 (wrap64 a + x) = wrap64 (a + x).
Proof.
  unfold wrap64. f_equal.
  replace ((a + 2 ^ 63) mod 2 ^ 64 - 2 ^ 63 + x + 2 ^ 63)
    with ((a + 2 ^ 63) mod 2 ^ 64 + x) by lia.
  rewrite Zplus_mod_idemp_l. f_equal. lia.
Qed.

Lemma fold_add64 l a :
  fold_left add64 l (wrap64 a) = wrap64 (a + foldr Z.add 0 l).
Proof.
  revert a. induction l as [|x l IH]; intros a; simpl.
  - f_equal. lia.
  - unfold add64 at 2. rewrite wrap64_add_l, IH. f_equal. lia.
Qed.

Lemma sum64_total l : sum64 l = wrap64 (foldr Z.add 0 l).
Proof.
  unfold sum64. change 0 with (wrap64 0) at 1. apply fold_add64.
Qed.

Lemma total_take_drop (l : list Z) (i n : nat) :
  (i + n ≤ length l)%nat →
  foldr Z.add 0 (take n (drop i l))
  = foldr Z.add 0 (map (fun k => default 0 (l !! k)) (seq i n)).
Proof.
  revert i. induction n as [|n IH]; intros i Hlen; [reflexivity|].
  destruct (lookup_lt_is_Some_2 l i) as [x Hx]; [lia|].
  rewrite (drop_S _ _ _ Hx). simpl. rewrite Hx. simpl.
  f_equal. apply IH. lia.
Qed.

(** Inside the table a slice is not clamped. *)
Lemma slice_in_table {A} (l : list A) (i j : Z) :
  in_table (Z.of_nat (length l)) (i, j) →
  slice l i (j + 1)
  = take (Z.to_nat (j - i + 1)) (drop (Z.to_nat i) l).
Proof.
  unfold in_table, slice, slice_bound. simpl. intros (Hi & Hij & Hj).
  destruct (Z.ltb_spec i 0); [lia|].
  destruct (Z.ltb_spec (j + 1) 0); [lia|].
  rewrite !Z.min_l by lia. f_equal. f_equal. lia.
Qed.

Lemma bucket_in_table (column : list Z) (i j : Z) :
  in_table (Z.of_nat (length column)) (i, j) →
  bucket column (i, j) = wrap64 (rows_total column i j).
Proof.
  intros Hin. unfold bucket. rewrite sum64_total, slice_in_table by assumption.
  unfold rows_total. f_equal. apply total_take_drop.
  destruct Hin as (Hi & Hij & Hj). simpl in *. lia.
Qed.

Lemma PUFWAGES_in_table : Forall (in_table 21) PUFWAGES.
Proof. repeat constructor; simpl; lia. Qed.

Lemma CPSWAGES_in_table : Forall (in_table 21) CPSWAGES.
Proof. repeat constructor; simpl; lia. Qed.

Lemma map_bucket_in_table (column : list Z) (indicies : list (Z * Z)) :
  Forall (in_table (Z.of_nat (length column))) indicies →
  map (bucket column) indicies
  = map (fun ij => wrap64 (rows_total column ij.1 ij.2)) indicies.
Proof.
  induction 1 as [|[i j] rest Hij _ IH]; [reflexivity|].
  simpl. rewrite IH. f_equal. apply bucket_in_table. exact Hij.
Qed.

Lemma slice_head {A} (l : list A) (n : nat) :
  slice l 0 (Z.of_nat n) = take n l.
Proof.
  unfold slice, slice_bound.
  destruct (Z.ltb_spec 0 0); [lia|].
  destruct (Z.ltb_spec (Z.of_nat n) 0); [lia|].
  rewrite (Z.min_l 0) by lia. change (Z.to_nat 0) with 0%nat.
  rewrite drop_0.
  destruct (Z.min_spec (Z.of_nat n) (Z.of_nat (length l))) as [[H1 ->]|[H1 ->]].
  - f_equal. lia.
  - rewrite Z.sub_0_r, Nat2Z.id. rewrite !take_ge by lia. reflexivity.
Qed.

Lemma table14_wages_assert (row : Type) (wage : row → Z) (data : list row)
    (indicies : list (Z * Z)) :
  table14_wages row wage data indicies =
  if decide (length data = 21%nat)
  then inr (map (bucket (map wage data)) indicies)
  else inl AssertionError.
Proof.
  unfold table14_wages.
  destruct (Z.eqb_spec (Z.of_nat (length data)) 21);
    destruct (decide (length data = 21%nat)); try reflexivity; lia.
Qed.




(** C10. [table14] keeps the first 21 rows of the sheet and
    [table14_wages] asserts that exactly 21 rows are there before it sums
    anything: on any other row count it raises [AssertionError] and
    computes no bucket. Every pair of [PUFWAGES] and [CPSWAGES] has
    [0 <= i <= j <= 20], and 20 is reached; so on the 21 checked rows
    every slice [i : j + 1] has all its [j - i + 1] rows and every row it
    reads exists. *)
Theorem wage_buckets_inside_checked_table
    (row : Type) (wage : row → Z) (nonwages : Type)
    (table14_nonwages : list row → exn + nonwages)
    (sheet : list row) (indicies : list (Z * Z)) :
  indicies = PUFWAGES ∨ indicies = CPSWAGES →
  (∀ data : list row,
     table14_wages row wage data indicies = inl AssertionError
     ↔ length data ≠ 21%nat)
  ∧ slice sheet 0 21 = take 21 sheet
  ∧ ((length sheet < 21)%nat →
     table14_wages row wage (slice sheet 0 21) indicies
     = inl AssertionError)
  ∧ (Forall (in_table 21) indicies
     ∧ Forall (fun ij : Z * Z => ij.2 ≤ 20) indicies
     ∧ ∃ i, (i, 20) ∈ indicies)
  ∧ ((21 ≤ length sheet)%nat →
     length (slice sheet 0 21) = 21%nat
     ∧ ∀ ij, ij ∈ indicies →
         length (slice (map wage (slice sheet 0 21)) ij.1 (ij.2 + 1))
         = Z.to_nat (ij.2 - ij.1 + 1)
         ∧ ∀ k, ij.1 ≤ k ≤ ij.2 →
             is_Some (map wage (slice sheet 0 21) !! Z.to_nat k))
  ∧ (∀ nw, table14_nonwages (slice sheet 0 21) = inr nw →
       table14 row wage nonwages table14_nonwages sheet indicies
       = if decide (21 ≤ length sheet)%nat
         then inr (nw, map (fun ij => wrap64
                              (rows_total (map wage (take 21 sheet))
                                 ij.1 ij.2)) indicies)
         else inl AssertionError).
Proof.
  intros Hidx.
  assert (Hhead : slice sheet 0 21 = take 21 sheet)
    by apply (slice_head sheet 21).
  assert (Hin : Forall (in_table 21) indicies).
  { destruct Hidx as [-> | ->];
      [apply PUFWAGES_in_table | apply CPSWAGES_in_table]. }
  split; [|split; [|split; [|split; [|split]]]].
  - intros data. rewrite table14_wages_assert.
    destruct (decide (length data = 21%nat)); split; intros H;
      try discriminate; try contradiction; auto.
  - exact Hhead.
  - intros Hlt. rewrite table14_wages_assert, Hhead.
    destruct (decide (length (take 21 sheet) = 21%nat)) as [E|]; [|reflexivity].
    rewrite length_take in E. lia.
  - split; [exact Hin|]. split.
    + eapply Forall_impl; [exact Hin|].
      intros [i j] (_ & _ & H). simpl in *. lia.
    + destruct Hidx as [-> | ->]; [exists 17 | exists 13];
        unfold PUFWAGES, CPSWAGES; set_solver.
  - intros Hge.
    assert (Hlen : length (take 21 sheet) = 21%nat)
      by (rewrite length_take; lia).
    rewrite Hhead. split; [exact Hlen|].
    intros [i j] Hij. simpl.
    rewrite Forall_forall in Hin. specialize (Hin _ Hij).
    destruct Hin as (Hi & Hle & Hj). simpl in *.
    assert (Hcol : length (map wage (take 21 sheet)) = 21%nat)
      by (rewrite length_map; exact Hlen).
    split.
    + rewrite slice_in_table
        by (unfold in_table; rewrite Hcol; simpl; lia).
      rewrite length_take, length_drop, Hcol. lia.
    + intros k Hk. apply lookup_lt_is_Some_2. rewrite Hcol. lia.
  - intros nw Hnw. unfold table14. rewrite Hnw, table14_wages_assert, Hhead.
    rewrite length_take.
    destruct (decide ((21 `min` length sheet)%nat = 21%nat));
      destruct (decide (21 ≤ length sheet)%nat); try lia; [|reflexivity].
    f_equal. f_equal. apply map_bucket_in_table.
    rewrite length_map, length_take.
    replace (Z.of_nat (21 `min` length sheet)) with 21 by lia.
    exact Hin.
Qed.

Lemma wage_buckets_inside_checked_table_witness :
  table14_wages Z id (slice (take 20 wage_column) 0 21) PUFWAGES
  = inl AssertionError.
Proof.
  apply (wage_buckets_inside_checked_table Z id unit (fun _ => inr tt)
           (take 20 wage_column) PUFWAGES).
  - left. reflexivity.
  - simpl. lia.
Defined.

End WageBuckets.


(** ** A sheet is returned only when every entry passed *)
Section AllOrNothing.
Import Py Cbo Examples.
Variable num : Type.
Variable str_num : num → string.

Lemma check_rows_passed_inv cfg cbolabel items t u :
  check_rows cfg cbolabel items = (t, inr (Some u)) →
  Forall (field_ok cfg cbolabel) items ∧ t = [].
Proof.
  induction items as [|[cname cdict] rest IH].
  - intros [= <- _]. split; [constructor|reflexivity].
  - rewrite check_rows_cons.
    destruct (read_cbo_label cfg cbolabel (row cdict)) as [e|[alabel|]] eqn:Hl;
      try discriminate.
    destruct (startswith alabel (label cdict)) eqn:Hs; [|discriminate].
    intros H. destruct (IH H) as [Hrest ->]. split; [|reflexivity].
    constructor; [|exact Hrest]. exists alabel. split; assumption.
Qed.

(** Whenever [read_check_spreadsheet] returns a sheet, it is the sheet
    that was read, unchanged; all structure checks passed; every entry of
    [CBO_ROWS] resolved to a label starting with the expected one; and
    nothing was written to standard error. *)
Theorem validated_sheet_passed_every_check
    (cfg : config) (pol : policy) (fname : string)
    (file : option (DataFrame num)) (d : DataFrame num) :
  outcome (read_check_spreadsheet num str_num cfg pol fname file)
    = inr (Some d) →
  file = Some d
  ∧ years_ok cfg pol
  ∧ (∃ cbolabel,
       fill_labels num str_num d (CBO_STR_COLS cfg) ∅ = inr cbolabel
       ∧ Forall (field_ok cfg cbolabel) (CBO_ROWS cfg))
  ∧ trace (read_check_spreadsheet num str_num cfg pol fname file)
    = [ReadExcel fname].
Proof.
  unfold read_check_spreadsheet, years_ok.
  destruct (check_cbo_year_cases cfg) as [[_ E]|[_ E]]; rewrite E;
    [|discriminate].
  io_unfold. simpl.
  destruct (in_range (LAST_KNOWN_YEAR pol) _ _); simpl;
    destruct (in_range (LAST_BUDGET_YEAR pol) _ _); simpl; try discriminate.
  destruct file as [cbodf|]; simpl; [|discriminate].
  destruct (fill_labels num str_num cbodf (CBO_STR_COLS cfg) ∅)
    as [e|cbolabel] eqn:Hfill; simpl; [discriminate|].
  destruct (check_rows cfg cbolabel (CBO_ROWS cfg)) as [t [e|[u|]]] eqn:Hrows;
    simpl; try discriminate.
  intros [= <-].
  destruct (check_rows_passed_inv _ _ _ _ _ Hrows) as [Hall ->].
  repeat split; try reflexivity.
  exists cbolabel. split; assumption.
Qed.

End AllOrNothing.

Section AllOrNothingRuns.
Import Py Cbo Examples.

Lemma validated_sheet_passed_every_check_witness :
  Some good_sheet = Some good_sheet
  ∧ years_ok cbo_2024 pol
  ∧ (∃ cbolabel,
       fill_labels Z str_int good_sheet (CBO_STR_COLS cbo_2024) ∅
         = inr cbolabel
       ∧ Forall (field_ok cbo_2024 cbolabel) (CBO_ROWS cbo_2024))
  ∧ trace (read_check_spreadsheet Z str_int cbo_2024 pol "cbo.xlsx"
             (Some good_sheet))
    = [ReadExcel "cbo.xlsx"].
Proof.
  apply (validated_sheet_passed_every_check Z str_int cbo_2024 pol
           "cbo.xlsx" (Some good_sheet) good_sheet).
  vm_compute. reflexivity.
Defined.

End AllOrNothingRuns.


(** ** Requests that are served, and the ones that are not *)
Section Requests.
Import Py Cbo Examples.
Variable num : Type.

(** [cbo_value] returns [None] only for a bad request, and writes to
    standard error only for a bad request. *)
Theorem cbo_value_none_only_for_bad_request
    (cfg : config) (cbodf : DataFrame num) (name : string) (yr : Z) :
  (outcome (cbo_value cfg cbodf name yr) = inr VNone
   ↔ rows_get (CBO_ROWS cfg) name = None
     ∨ yr < year (first (CBO_YEAR cfg))
     ∨ year (last (CBO_YEAR cfg)) < yr)
  ∧ (trace (cbo_value cfg cbodf name yr) = []
     ↔ is_Some (rows_get (CBO_ROWS cfg) name)
       ∧ year (first (CBO_YEAR cfg)) ≤ yr ≤ year (last (CBO_YEAR cfg))).
Proof.
  rewrite cbo_value_unfold. cbv zeta.
  destruct (rows_get (CBO_ROWS cfg) name) as [spec|] eqn:Hn.
  - destruct (Z.ltb_spec yr (year (first (CBO_YEAR cfg))));
      destruct (Z.gtb_spec yr (year (last (CBO_YEAR cfg)))); simpl;
      try (split;
           [split; [intros _; lia | reflexivity]
           |split; [discriminate | intros [_ ?]; lia]]).
    split.
    + split.
      * destruct (chr _) as [e|letter]; [discriminate|].
        destruct (iat cbodf _ _) as [e|val]; [discriminate|].
        destruct (pct spec); [destruct val|]; discriminate.
      * intros [?|[?|?]]; [discriminate|lia|lia].
    + split; [|reflexivity]. intros _. split; [eauto|lia].
  - split.
    + split; [auto|reflexivity].
    + split; [discriminate|]. intros [[? ?] _]. discriminate.
Qed.

Lemma getitem_inv {A} (l : list A) (i : Z) (x : A) :
  getitem l i = inr x → - Z.of_nat (length l) ≤ i < Z.of_nat (length l).
Proof.
  unfold getitem. destruct (Z.ltb_spec i 0);
    destruct (Z.leb_spec 0 (i + Z.of_nat (length l)));
    destruct (Z.leb_spec 0 i);
    destruct (Z.ltb_spec (i + Z.of_nat (length l)) (Z.of_nat (length l)));
    destruct (Z.ltb_spec i (Z.of_nat (length l)));
    simpl; try discriminate; intros _; lia.
Qed.

Lemma getitem_nonneg {A} (l : list A) (i : Z) :
  0 ≤ i →
  getitem l i = match l !! Z.to_nat i with
                | Some x => inr x
                | None => inl IndexError
                end.
Proof.
  intros Hi. unfold getitem.
  destruct (Z.ltb_spec i 0); [lia|].
  destruct (Z.leb_spec 0 i); [|lia]. simpl.
  destruct (Z.ltb_spec i (Z.of_nat (length l))); [reflexivity|].
  rewrite lookup_ge_None_2 by lia. reflexivity.
Qed.

Lemma getitem_same_length {A B} (l : list A) (l' : list B) (i : Z) (x : A) :
  length l = length l' → getitem l i = inr x → ∃ y, getitem l' i = inr y.
Proof.
  intros Hlen Hx. pose proof (getitem_inv _ _ _ Hx) as Hi.
  unfold getitem. rewrite <- Hlen.
  set (k := if i <? 0 then i + Z.of_nat (length l) else i).
  assert (Hk : 0 ≤ k < Z.of_nat (length l))
    by (unfold k; destruct (Z.ltb_spec i 0); lia).
  destruct (Z.leb_spec 0 k); [|lia].
  destruct (Z.ltb_spec k (Z.of_nat (length l))); [|lia]. simpl.
  destruct (lookup_lt_is_Some_2 l' (Z.to_nat k)) as [y Hy]; [lia|].
  rewrite Hy. eauto.
Qed.

(** [iat] at non-negative positions: the cell when both lie in the
    sheet, [IndexError] otherwise. *)
Lemma iat_nonneg (df : DataFrame num) (r c : Z) :
  0 ≤ r → 0 ≤ c →
  iat df r c =
  match rows df !! Z.to_nat r with
  | Some rw => if c <? Z.of_nat (ncols df)
               then inr (cell_of rw (Z.to_nat c)) else inl IndexError
  | None => inl IndexError
  end.
Proof.
  intros Hr Hc. unfold iat. rewrite getitem_nonneg by assumption.
  destruct (rows df !! Z.to_nat r) as [rw|]; [|reflexivity].
  destruct (Z.ltb_spec c 0); [lia|].
  destruct (Z.leb_spec 0 c); [|lia]. reflexivity.
Qed.

(** For a good request on a consistent [CBO_YEAR] whose row number is at
    least 1 and whose first column is A or later, [cbo_value] writes
    nothing and its result is decided by one cell: the one in the row of
    index [row - 1] and in the column as far from column 0 as the year's
    letter is from A. It returns that cell ([round(0.01 * cell, 6)] under
    a "pct" key, [TypeError] if the cell is then text), and it ends in
    [IndexError] exactly when the sheet lacks that row or that column. *)
Theorem cbo_value_cell_or_index_error
    (cfg : config) (cbodf : DataFrame num) (name : string) (yr : Z)
    (spec : cbo_row) :
  rows_get (CBO_ROWS cfg) name = Some spec →
  year (first (CBO_YEAR cfg)) ≤ yr ≤ year (last (CBO_YEAR cfg)) →
  ydiff cfg = cdiff cfg →
  1 ≤ row spec →
  of_ascii "A" ≤ of_ascii (col (first (CBO_YEAR cfg))) →
  cbo_value cfg cbodf name yr =
    ([], match rows cbodf !! Z.to_nat (row spec - 1) with
         | Some rw =>
             if of_ascii (col (first (CBO_YEAR cfg))) - of_ascii "A"
                + (yr - year (first (CBO_YEAR cfg)))
                <? Z.of_nat (ncols cbodf)
             then
               let c := cell_of rw
                          (Z.to_nat
                             (of_ascii (col (first (CBO_YEAR cfg)))
                              - of_ascii "A"
                              + (yr - year (first (CBO_YEAR cfg))))) in
               if pct spec then
                 match c with
                 | CStr _ => inl TypeError
                 | _ => inr (VPct c)
                 end
               else inr (VCell c)
             else inl IndexError
         | None => inl IndexError
         end)
  ∧ (outcome (cbo_value cfg cbodf name yr) = inl IndexError
     ↔ Z.of_nat (length (rows cbodf)) < row spec
       ∨ Z.of_nat (ncols cbodf)
         ≤ of_ascii (col (first (CBO_YEAR cfg))) - of_ascii "A"
           + (yr - year (first (CBO_YEAR cfg)))).
Proof.
  intros Hn Hy Hc Hrow HA.
  rewrite (cbo_value_in_range _ _ _ _ _ _ Hn Hy Hc).
  rewrite iat_nonneg by lia.
  set (k := of_ascii (col (first (CBO_YEAR cfg))) - of_ascii "A"
            + (yr - year (first (CBO_YEAR cfg)))).
  split.
  { destruct (rows cbodf !! Z.to_nat (row spec - 1)) as [rw|]; [|reflexivity].
    destruct (k <? Z.of_nat (ncols cbodf)); reflexivity. }
  unfold outcome, snd.
  destruct (rows cbodf !! Z.to_nat (row spec - 1)) as [rw|] eqn:Hrw.
  - apply lookup_lt_Some in Hrw.
    destruct (Z.ltb_spec k (Z.of_nat (ncols cbodf))).
    + split; [|lia].
      destruct (pct spec); [destruct (cell_of rw (Z.to_nat k))|];
        discriminate.
    + split; [intros _; right; lia|reflexivity].
  - apply lookup_ge_None in Hrw. split; [intros _; left; lia|reflexivity].
Qed.

End Requests.

Section RequestsRuns.
Import Py Cbo Examples.

Lemma cbo_value_cell_or_index_error_witness :
  cbo_value cbo_2024 good_sheet "c_cpiu" 2030 = ([], inr (VCell (CNum 191)))
  ∧ cbo_value cbo_2024
      {| ncols := 10; rows := rows good_sheet |} "c_cpiu" 2030
    = ([], inl IndexError).
Proof.
  split.
  - rewrite (proj1 (cbo_value_cell_or_index_error Z cbo_2024 good_sheet
                      "c_cpiu" 2030
                      {| row := 158; label := "Chained consumer price index";
                         pct := false |}
                      eq_refl
                      (conj (Zle_bool_imp_le 2021 2030 eq_refl)
                            (Zle_bool_imp_le 2030 2034 eq_refl))
                      eq_refl
                      (Zle_bool_imp_le 1 158 eq_refl)
                      (Zle_bool_imp_le 65 69 eq_refl))).
    vm_compute. reflexivity.
  - rewrite (proj1 (cbo_value_cell_or_index_error Z cbo_2024
                      {| ncols := 10; rows := rows good_sheet |}
                      "c_cpiu" 2030
                      {| row := 158; label := "Chained consumer price index";
                         pct := false |}
                      eq_refl
                      (conj (Zle_bool_imp_le 2021 2030 eq_refl)
                            (Zle_bool_imp_le 2030 2034 eq_refl))
                      eq_refl
                      (Zle_bool_imp_le 1 158 eq_refl)
                      (Zle_bool_imp_le 65 69 eq_refl))).
    vm_compute. reflexivity.
Defined.

End RequestsRuns.

(** ** How a run of [read_check_spreadsheet] can end *)
Section ReadCheckRuns.
Import Py Cbo Examples.
Variable num : Type.
Variable str_num : num → string.

Lemma read_check_after_checks cfg pol fname file :
  years_ok cfg pol →
  read_check_spreadsheet num str_num cfg pol fname file =
  match file with
  | None =>
      ([ReadExcel fname;
        StderrWrite ("READ: " ++ ("could not read sheet in " ++ fname
                       ++ " into a DataFrame") ++ nl)], inr None)
  | Some cbodf =>
      match fill_labels num str_num cbodf (CBO_STR_COLS cfg) ∅ with
      | inl e => ([ReadExcel fname], inl e)
      | inr cbolabel =>
          match check_rows cfg cbolabel (CBO_ROWS cfg) with
          | (t, inl e) => (ReadExcel fname :: t, inl e)
          | (t, inr None) => (ReadExcel fname :: t, inr None)
          | (t, inr (Some _)) => (ReadExcel fname :: t, inr (Some cbodf))
          end
      end
  end.
Proof.
  intros Hy. destruct file as [cbodf|].
  - destruct (fill_labels num str_num cbodf (CBO_STR_COLS cfg) ∅)
      as [e|cbolabel] eqn:Hfill.
    + destruct Hy as (Hy & Hk & Hb). unfold read_check_spreadsheet.
      destruct (check_cbo_year_cases cfg) as [[_ E]|[_ E]];
        rewrite E in Hy |- *; [|discriminate Hy].
      io_unfold. simpl. rewrite Hk, Hb, Hfill. reflexivity.
    + apply read_check_reaches_rows; assumption.
  - destruct Hy as (Hy & Hk & Hb). unfold read_check_spreadsheet.
    destruct (check_cbo_year_cases cfg) as [[_ E]|[_ E]];
      rewrite E in Hy |- *; [|discriminate Hy].
    io_unfold. simpl. rewrite Hk, Hb. reflexivity.
Qed.

Lemma read_check_failed_checks cfg pol fname file :
  ¬ years_ok cfg pol →
  ∃ t, read_check_spreadsheet num str_num cfg pol fname file = (t, inr None)
       ∧ t ≠ [] ∧ Forall (fun ev => ∃ msg, ev = StderrWrite msg) t.
Proof.
  intros Hno. unfold years_ok in Hno. unfold read_check_spreadsheet.
  destruct (check_cbo_year_cases cfg) as [[_ E]|[_ E]]; rewrite E in Hno |- *.
  - io_unfold. simpl.
    destruct (in_range (LAST_KNOWN_YEAR pol) _ _) eqn:Hk;
      destruct (in_range (LAST_BUDGET_YEAR pol) _ _) eqn:Hb; simpl.
    + exfalso. apply Hno. repeat split; reflexivity.
    + eexists. split; [reflexivity|]. split; [discriminate|].
      repeat constructor. eauto.
    + eexists. split; [reflexivity|]. split; [discriminate|].
      repeat constructor. eauto.
    + eexists. split; [reflexivity|]. split; [discriminate|].
      repeat constructor; eauto.
  - eexists. split; [reflexivity|]. split; [discriminate|].
    repeat constructor. eauto.
Qed.

Lemma years_ok_dec cfg pol : years_ok cfg pol ∨ ¬ years_ok cfg pol.
Proof.
  unfold years_ok.
  destruct (check_cbo_year_cases cfg) as [[_ E]|[_ E]]; rewrite E;
    [|right; intros (H & _); discriminate H].
  destruct (in_range (LAST_KNOWN_YEAR pol) _ _);
    [|right; intros (_ & H & _); discriminate H].
  destruct (in_range (LAST_BUDGET_YEAR pol) _ _);
    [|right; intros (_ & _ & H); discriminate H].
  left. repeat split.
Qed.

(** [read_excel] is called exactly when the [CBO_YEAR] check and both
    [taxcalc.Policy] checks pass. When one fails the function returns
    [None] having only written diagnostics; when all pass and [read_excel]
    raises, it reports the file and returns [None]. *)
Theorem sheet_read_only_after_structure_checks
    (cfg : config) (pol : policy) (fname : string)
    (file : option (DataFrame num)) :
  (years_ok cfg pol
   ↔ ReadExcel fname
     ∈ trace (read_check_spreadsheet num str_num cfg pol fname file))
  ∧ (¬ years_ok cfg pol →
     outcome (read_check_spreadsheet num str_num cfg pol fname file)
       = inr None
     ∧ trace (read_check_spreadsheet num str_num cfg pol fname file) ≠ [])
  ∧ (years_ok cfg pol →
     read_check_spreadsheet num str_num cfg pol fname None =
     ([ReadExcel fname;
       StderrWrite ("READ: " ++ ("could not read sheet in " ++ fname
                      ++ " into a DataFrame") ++ nl)], inr None)).
Proof.
  split; [|split].
  - split.
    + intros Hy. rewrite (read_check_after_checks _ _ _ _ Hy).
      destruct file as [cbodf|]; [|unfold trace; simpl; set_solver].
      destruct (fill_labels _ _ _ _ _) as [e|cbolabel];
        [unfold trace; simpl; set_solver|].
      destruct (check_rows _ _ _) as [t [e|[u|]]];
        unfold trace; simpl; set_solver.
    + intros Hin. destruct (years_ok_dec cfg pol) as [|Hno]; [assumption|].
      destruct (read_check_failed_checks cfg pol fname file Hno)
        as (t & E & _ & Hall).
      rewrite E in Hin. unfold trace in Hin. simpl in Hin.
      rewrite Forall_forall in Hall.
      destruct (Hall _ Hin) as [msg Hmsg]. discriminate Hmsg.
  - intros Hno.
    destruct (read_check_failed_checks cfg pol fname file Hno)
      as (t & E & Hne & _).
    rewrite E. split; [reflexivity|exact Hne].
  - intros Hy. apply (read_check_after_checks _ _ _ None Hy).
Qed.

Lemma column_valid (df : DataFrame num) (c : Z) :
  0 ≤ c < Z.of_nat (ncols df) →
  column df c = inr (map (fun r => cell_of r (Z.to_nat c)) (rows df)).
Proof.
  intros Hc. unfold column.
  destruct (Z.leb_spec 0 c); [|lia].
  destruct (Z.ltb_spec c (Z.of_nat (ncols df))); [reflexivity|lia].
Qed.

Lemma column_invalid (df : DataFrame num) (c : Z) :
  ¬ (0 ≤ c < Z.of_nat (ncols df)) → column df c = inl KeyError.
Proof.
  intros Hc. unfold column.
  destruct (Z.leb_spec 0 c); [|reflexivity].
  destruct (Z.ltb_spec c (Z.of_nat (ncols df))); [lia|reflexivity].
Qed.

Lemma fill_labels_key_error (df : DataFrame num) cols acc :
  Exists (fun c => ¬ (0 ≤ c < Z.of_nat (ncols df))) cols →
  fill_labels num str_num df cols acc = inl KeyError.
Proof.
  intros Hex. revert acc. induction cols as [|c rest IH]; intros acc.
  - inversion Hex.
  - simpl. destruct (column df c) as [e|objs] eqn:Hcol.
    + unfold column in Hcol.
      destruct ((0 <=? c) && (c <? Z.of_nat (ncols df))); congruence.
    + apply IH. inversion Hex as [? ? Hbad|]; [|assumption].
      rewrite column_invalid in Hcol by exact Hbad. discriminate.
Qed.

Lemma fill_labels_inv (df : DataFrame num) cols acc cbolabel :
  fill_labels num str_num df cols acc = inr cbolabel →
  ∀ k, (k ∈ cols →
        ∃ column, cbolabel !! k = Some column
                  ∧ length column = length (rows df))
       ∧ (k ∉ cols → cbolabel !! k = acc !! k).
Proof.
  revert acc. induction cols as [|c rest IH]; intros acc Hfill k.
  - injection Hfill as <-. split; [intros H; inversion H|reflexivity].
  - simpl in Hfill. destruct (column df c) as [e|objs] eqn:Hcol;
      [discriminate|].
    assert (Hlen : length (map (str num str_num) objs) = length (rows df)).
    { unfold column in Hcol.
      destruct ((0 <=? c) && (c <? Z.of_nat (ncols df))); [|discriminate].
      injection Hcol as <-. rewrite !length_map. reflexivity. }
    destruct (IH _ Hfill k) as [Hin Hout].
    destruct (decide (k ∈ rest)) as [Hk|Hk].
    + split; [intros _; apply Hin, Hk|].
      intros Hno. exfalso. apply Hno. apply elem_of_cons. right. exact Hk.
    + split.
      * intros Hk'. apply elem_of_cons in Hk' as [->|Hk']; [|contradiction].
        rewrite (Hout Hk), lookup_insert_eq. eauto.
      * intros Hno. rewrite (Hout Hk). apply lookup_insert_ne.
        intros ->. apply Hno. apply elem_of_cons. left. reflexivity.
Qed.

(** A sheet that lacks one of the label columns ends the run in
    [KeyError] right after the read: no diagnostic, no [None]. *)
Theorem narrow_sheet_raises_key_error
    (cfg : config) (pol : policy) (fname : string) (cbodf : DataFrame num) :
  years_ok cfg pol →
  Exists (fun c => ¬ (0 ≤ c < Z.of_nat (ncols cbodf))) (CBO_STR_COLS cfg) →
  read_check_spreadsheet num str_num cfg pol fname (Some cbodf)
  = ([ReadExcel fname], inl KeyError).
Proof.
  intros Hy Hex. rewrite (read_check_after_checks _ _ _ _ Hy).
  rewrite fill_labels_key_error by exact Hex. reflexivity.
Qed.

(** A sheet with fewer rows than the row number of an entry, the entries
    before it passing, ends the run in [IndexError]: no diagnostic, no
    [None]. *)
Theorem short_sheet_raises_index_error
    (cfg : config) (pol : policy) (fname : string) (cbodf : DataFrame num)
    (cbolabel : gmap Z (list string))
    (pre : list (string * cbo_row)) (cname : string) (cdict : cbo_row)
    (suf : list (string * cbo_row)) :
  years_ok cfg pol →
  fill_labels num str_num cbodf (CBO_STR_COLS cfg) ∅ = inr cbolabel →
  CBO_STR_COLS cfg ≠ [] →
  CBO_ROWS cfg = (pre ++ (cname, cdict) :: suf)%list →
  Forall (field_ok cfg cbolabel) pre →
  Z.of_nat (length (rows cbodf)) < row cdict →
  read_check_spreadsheet num str_num cfg pol fname (Some cbodf)
  = ([ReadExcel fname], inl IndexError).
Proof.
  intros Hy Hfill Hcols Hrows Hpre Hshort.
  rewrite (read_check_reaches_rows _ _ _ _ _ _ _ Hy Hfill), Hrows.
  rewrite check_rows_skip by assumption. rewrite check_rows_cons.
  unfold read_cbo_label.
  destruct (CBO_STR_COLS cfg) as [|c cs] eqn:Hc; [contradiction|].
  rewrite scan_label_cons. unfold label_cell.
  destruct (proj1 (fill_labels_inv _ _ _ _ Hfill c)) as (column & Hcol & Hlen).
  { apply elem_of_cons. left. reflexivity. }
  rewrite Hcol.
  destruct (getitem column (rindex (row cdict))) as [e|l] eqn:Hget.
  - unfold getitem in Hget.
    destruct ((0 <=? _) && _) in Hget;
      [destruct (column !! _) in Hget|]; congruence.
  - apply getitem_inv in Hget. unfold rindex in Hget. lia.
Qed.

Lemma check_rows_all_ok cfg cbolabel items t u :
  check_rows cfg cbolabel items = (t, inr (Some u)) →
  Forall (field_ok cfg cbolabel) items.
Proof.
  induction items as [|[cname cdict] rest IH]; [constructor|].
  rewrite check_rows_cons.
  destruct (read_cbo_label cfg cbolabel (row cdict)) as [e|[alabel|]] eqn:Hl;
    try discriminate.
  destruct (startswith alabel (label cdict)) eqn:Hs; [|discriminate].
  intros H. constructor; [|apply IH, H]. exists alabel. split; assumption.
Qed.

Lemma read_check_returned cfg pol fname file d :
  outcome (read_check_spreadsheet num str_num cfg pol fname file)
    = inr (Some d) →
  years_ok cfg pol
  ∧ ∃ cbolabel,
      fill_labels num str_num d (CBO_STR_COLS cfg) ∅ = inr cbolabel
      ∧ Forall (field_ok cfg cbolabel) (CBO_ROWS cfg).
Proof.
  intros Hout. destruct (years_ok_dec cfg pol) as [Hy|Hno].
  - split; [exact Hy|].
    rewrite (read_check_after_checks _ _ _ _ Hy) in Hout.
    destruct file as [cbodf|]; [|discriminate].
    destruct (fill_labels num str_num cbodf (CBO_STR_COLS cfg) ∅)
      as [e|cbolabel] eqn:Hfill; [discriminate|].
    destruct (check_rows cfg cbolabel (CBO_ROWS cfg)) as [t [e|[u|]]] eqn:Hrows;
      try discriminate.
    injection Hout as <-. exists cbolabel. split; [exact Hfill|].
    eapply check_rows_all_ok, Hrows.
  - destruct (read_check_failed_checks cfg pol fname file Hno) as (t & E & _).
    rewrite E in Hout. discriminate.
Qed.

Lemma scan_label_found cbolabel ridx cols l :
  scan_label cbolabel ridx cols = inr (Some l) →
  ∃ c, c ∈ cols ∧ label_cell cbolabel c ridx = inr l.
Proof.
  induction cols as [|c rest IH]; [discriminate|].
  rewrite scan_label_cons.
  destruct (label_cell cbolabel c ridx) as [e|l'] eqn:Hc; [discriminate|].
  destruct (String.eqb l' "nan").
  - intros H. destruct (IH H) as (c' & Hin & Hl).
    exists c'. split; [apply elem_of_cons; right; exact Hin|exact Hl].
  - intros [= <-]. exists c. split; [apply elem_of_cons; left; reflexivity|].
    exact Hc.
Qed.

Lemma rows_get_elem rws name spec :
  rows_get rws name = Some spec → (name, spec) ∈ rws.
Proof.
  induction rws as [|[k v] rest IH]; [discriminate|]. simpl.
  destruct (String.eqb_spec k name) as [->|].
  - intros [= ->]. apply elem_of_cons. left. reflexivity.
  - intros H. apply elem_of_cons. right. apply IH, H.
Qed.

(** On a sheet that [read_check_spreadsheet] returned, every request for
    a name of [CBO_ROWS] and a year in range finds its row, the one of
    index [row - 1]: with a first column of A or later, [cbo_value]
    returns the cell of that row in the year's column when the sheet is
    wide enough ([round(0.01 * cell, 6)] under a "pct" key, [TypeError]
    if the cell is then text), and ends in [IndexError] only when the
    sheet is too narrow. *)
Theorem validated_sheet_has_requested_rows
    (cfg : config) (pol : policy) (fname : string)
    (file : option (DataFrame num)) (d : DataFrame num)
    (name : string) (spec : cbo_row) (yr : Z) :
  outcome (read_check_spreadsheet num str_num cfg pol fname file)
    = inr (Some d) →
  rows_get (CBO_ROWS cfg) name = Some spec →
  year (first (CBO_YEAR cfg)) ≤ yr ≤ year (last (CBO_YEAR cfg)) →
  of_ascii "A" ≤ of_ascii (col (first (CBO_YEAR cfg))) →
  ∃ rw, getitem (rows d) (row spec - 1) = inr rw
        ∧ cbo_value cfg d name yr =
          ([], if of_ascii (col (first (CBO_YEAR cfg))) - of_ascii "A"
                  + (yr - year (first (CBO_YEAR cfg))) <? Z.of_nat (ncols d)
               then let c := cell_of rw
                               (Z.to_nat
                                  (of_ascii (col (first (CBO_YEAR cfg)))
                                   - of_ascii "A"
                                   + (yr - year (first (CBO_YEAR cfg))))) in
                    if pct spec then
                      match c with
                      | CStr _ => inl TypeError
                      | _ => inr (VPct c)
                      end
                    else inr (VCell c)
               else inl IndexError).
Proof.
  intros Hout Hn Hy HA.
  destruct (read_check_returned _ _ _ _ _ Hout)
    as (Hok & cbolabel & Hfill & Hall).
  assert (Hc : ydiff cfg = cdiff cfg).
  { destruct Hok as (Hc & _).
    destruct (check_cbo_year_cases cfg) as [[E _]|[_ E]]; [exact E|].
    rewrite E in Hc. discriminate Hc. }
  rewrite Forall_forall in Hall.
  destruct (Hall _ (rows_get_elem _ _ _ Hn)) as (alabel & Hl & _).
  simpl in Hl. unfold read_cbo_label, rindex in Hl.
  destruct (scan_label_found _ _ _ _ Hl) as (c & Hin & Hcell).
  unfold label_cell in Hcell.
  destruct (proj1 (fill_labels_inv _ _ _ _ Hfill c) Hin)
    as (column & Hcol & Hlen).
  rewrite Hcol in Hcell.
  destruct (getitem_same_length column (rows d) _ _ Hlen Hcell) as [rw Hrw].
  exists rw. split; [exact Hrw|].
  rewrite (cbo_value_in_range _ _ _ _ _ _ Hn Hy Hc).
  set (k := of_ascii (col (first (CBO_YEAR cfg))) - of_ascii "A"
            + (yr - year (first (CBO_YEAR cfg)))).
  assert (0 ≤ k) by (unfold k; lia).
  unfold iat. rewrite Hrw.
  destruct (Z.ltb_spec k 0); [lia|].
  destruct (Z.leb_spec 0 k); [|lia].
  simpl.
  destruct (Z.ltb_spec k (Z.of_nat (ncols d))); reflexivity.
Qed.

End ReadCheckRuns.

Section ReadCheckRunsOnSheets.
Import Py Cbo Examples.

Lemma sheet_read_only_after_structure_checks_witness :
  read_check_spreadsheet Z str_int cbo_2024 pol "cbo.xlsx" None =
  ([ReadExcel "cbo.xlsx";
    StderrWrite ("READ: " ++ ("could not read sheet in " ++ "cbo.xlsx"
                   ++ " into a DataFrame") ++ nl)], inr None).
Proof.
  apply (sheet_read_only_after_structure_checks Z str_int cbo_2024 pol
           "cbo.xlsx" None).
  exact years_ok_2024.
Defined.

Lemma narrow_sheet_raises_key_error_witness :
  read_check_spreadsheet Z str_int cbo_2024 pol "cbo.xlsx"
    (Some {| ncols := 3; rows := rows good_sheet |})
  = ([ReadExcel "cbo.xlsx"], inl KeyError).
Proof.
  apply (narrow_sheet_raises_key_error Z str_int cbo_2024 pol "cbo.xlsx"
           {| ncols := 3; rows := rows good_sheet |}).
  - exact years_ok_2024.
  - do 3 apply Exists_cons_tl. apply Exists_cons_hd. simpl. lia.
Defined.

Lemma short_sheet_raises_index_error_witness :
  read_check_spreadsheet Z str_int cbo_2024 pol "cbo.xlsx"
    (Some {| ncols := 18; rows := take 100 (rows good_sheet) |})
  = ([ReadExcel "cbo.xlsx"], inl IndexError).
Proof.
  apply (short_sheet_raises_index_error Z str_int cbo_2024 pol "cbo.xlsx"
           {| ncols := 18; rows := take 100 (rows good_sheet) |}
           (labels_of {| ncols := 18; rows := take 100 (rows good_sheet) |})
           [("year", {| row := 8; label := "Tax Year"; pct := false |})]
           "c_cpiu"
           {| row := 158; label := "Chained consumer price index";
              pct := false |} []).
  - exact years_ok_2024.
  - vm_compute. reflexivity.
  - discriminate.
  - reflexivity.
  - constructor; [|constructor].
    exists "Tax Year". split; vm_compute; reflexivity.
  - vm_compute. reflexivity.
Defined.

Lemma validated_sheet_has_requested_rows_witness :
  cbo_value cbo_2024 good_sheet "c_cpiu" 2022 = ([], inr (VCell (CNum 149))).
Proof.
  destruct (validated_sheet_has_requested_rows Z str_int cbo_2024 pol
              "cbo.xlsx" (Some good_sheet) good_sheet "c_cpiu"
              {| row := 158; label := "Chained consumer price index";
                 pct := false |} 2022)
    as (rw & Hrw & Hval).
  - vm_compute. reflexivity.
  - reflexivity.
  - simpl. lia.
  - vm_compute. discriminate.
  - rewrite Hval. vm_compute in Hrw. injection Hrw as <-.
    vm_compute. reflexivity.
Defined.

End ReadCheckRunsOnSheets.

(** ** The command line of the CBO script *)
Section Arguments.
Import Py PyExt Cbo Script.

Lemma endswith_refl s : endswith s s = true.
Proof. destruct s; cbn [endswith]; rewrite String.eqb_refl; reflexivity. Qed.

Lemma endswith_cons c s suf :
  endswith s suf = true → endswith (String c s) suf = true.
Proof.
  intros H. cbn [endswith].
  destruct (String.eqb (String c s) suf); [reflexivity|exact H].
Qed.

Lemma endswith_iff (s suf : string) :
  endswith s suf = true ↔ ∃ stem, s = stem ++ suf.
Proof.
  split.
  - induction s as [|c s IH]; cbn [endswith].
    + destruct (String.eqb_spec "" suf) as [<-|]; [|discriminate].
      intros _. exists "". reflexivity.
    + destruct (String.eqb_spec (String c s) suf) as [<-|].
      * intros _. exists "". reflexivity.
      * intros H. destruct (IH H) as [stem ->].
        exists (String c stem). reflexivity.
  - intros [stem ->]. induction stem as [|c stem IH].
    + apply endswith_refl.
    + change (String c stem ++ suf) with (String c (stem ++ suf)).
      apply endswith_cons, IH.
Qed.

(** [check_arguments] returns 0 exactly when the file name ends with
    ".xlsx" and the file exists, and 1 otherwise; it is silent exactly
    when it returns 0. An empty name is reported alone: the two other
    tests are not made. *)
Theorem check_arguments_accepts_exactly (fname : string) (path_exists : bool) :
  (outcome (check_arguments fname path_exists) = inr 0
   ↔ (∃ stem, fname = stem ++ ".xlsx") ∧ path_exists = true)
  ∧ (outcome (check_arguments fname path_exists) = inr 0
     ∨ outcome (check_arguments fname path_exists) = inr 1)
  ∧ (trace (check_arguments fname path_exists) = []
     ↔ outcome (check_arguments fname path_exists) = inr 0)
  ∧ check_arguments "" path_exists =
      ([StderrWrite ("ERROR: "
                     ++ "must specify CBOFILENAME command-line argument"
                     ++ nl)], inr 1).
Proof.
  split; [|split; [|split; [|reflexivity]]].
  - rewrite <- endswith_iff. unfold check_arguments.
    destruct fname as [|c fname]; [split; [discriminate|intros [H _]; discriminate H]|].
    change (Z.of_nat (String.length (String c fname)) <=? 0) with
      (Z.of_nat (S (String.length fname)) <=? 0).
    destruct (Z.leb_spec (Z.of_nat (S (String.length fname))) 0); [lia|].
    destruct (endswith (String c fname) ".xlsx"); destruct path_exists;
      split; try discriminate; try (intros [? ?]; discriminate); auto.
  - unfold check_arguments.
    destruct (Z.of_nat (String.length fname) <=? 0); [right; reflexivity|].
    destruct (endswith fname ".xlsx"); destruct path_exists; auto.
  - unfold check_arguments.
    destruct (Z.of_nat (String.length fname) <=? 0);
      [split; discriminate|].
    destruct (endswith fname ".xlsx"); destruct path_exists;
      split; try discriminate; auto.
Qed.

End Arguments.

(** ** Runs of [main] *)
Section MainRuns.
Import Py PyExt Cbo Script.
Variable num : Type.
Variable str_num : num → string.

Lemma check_arguments_outcome fname path_exists :
  (check_arguments fname path_exists = ([], inr 0))
  ∨ (∃ t, check_arguments fname path_exists = (t, inr 1)).
Proof.
  unfold check_arguments.
  destruct (Z.of_nat (String.length fname) <=? 0); [right; eauto|].
  destruct (endswith fname ".xlsx"); destruct path_exists;
    [left; reflexivity|right; eauto..].
Qed.

(** When [check_arguments] does not return 0, [main] writes its
    diagnostics, then the usage line, and returns 1: it does not open the
    file and prints nothing. *)
Theorem main_rejects_bad_arguments
    (cfg : config) (pol : policy) (fname : string) (path_exists : bool)
    (file : option (DataFrame num)) :
  outcome (check_arguments fname path_exists) ≠ inr 0 →
  main num str_num cfg pol fname path_exists file =
  ((map Event (trace (check_arguments fname path_exists))
    ++ [Event (StderrWrite ("USAGE: " ++ usage_str ++ nl))])%list, inr 1).
Proof.
  intros Hbad. unfold main.
  destruct (check_arguments_outcome fname path_exists) as [E|[t E]];
    rewrite E in Hbad |- *; [contradiction Hbad; reflexivity|].
  reflexivity.
Qed.

(** With accepted arguments, a sheet that [read_check_spreadsheet] does
    not return makes [main] print nothing: on [None] it adds the
    "unexpected structure" line to the diagnostics and returns 1; an
    exception of the check ends [main] with that exception. *)
Theorem main_prints_nothing_without_sheet
    (cfg : config) (pol : policy) (fname : string) (path_exists : bool)
    (file : option (DataFrame num)) :
  outcome (check_arguments fname path_exists) = inr 0 →
  (outcome (read_check_spreadsheet num str_num cfg pol fname file) = inr None →
   main num str_num cfg pol fname path_exists file =
   ((map Event (trace (read_check_spreadsheet num str_num cfg pol fname file))
     ++ [Event (StderrWrite
                  ("ERROR: CBO spreadsheet has unexpected structure" ++ nl))])%list,
    inr 1))
  ∧ (∀ e, outcome (read_check_spreadsheet num str_num cfg pol fname file)
          = inl e →
     main num str_num cfg pol fname path_exists file =
     (map Event (trace (read_check_spreadsheet num str_num cfg pol fname file)),
      inl e)).
Proof.
  intros Hok. unfold main.
  destruct (check_arguments_outcome fname path_exists) as [E|[t E]];
    rewrite E in Hok |- *; [|discriminate Hok].
  destruct (read_check_spreadsheet num str_num cfg pol fname file)
    as [t [e|[d|]]]; split; try discriminate; try reflexivity.
  intros e' [= <-]. reflexivity.
Qed.

Lemma print_years_cells (cfg : config) (d : DataFrame num)
    (v : Z → value num) (years : list Z) :
  (∀ y, y ∈ years →
        cbo_value cfg d "c_cpiu" y = ([], inr (v y))
        ∧ print_line y (v y) = ([Print y (v y)], inr tt)) →
  print_years cfg d years = (map (fun y => Print y (v y)) years, inr tt).
Proof.
  induction years as [|y rest IH]; intros H; [reflexivity|].
  destruct (H y) as [Hv Hp]; [apply elem_of_cons; left; reflexivity|].
  simpl. rewrite Hv. unfold of_io, trace, outcome, run_bind. simpl.
  rewrite Hp. rewrite IH; [reflexivity|].
  intros y' Hy'. apply H. apply elem_of_cons. right. exact Hy'.
Qed.

Lemma read_check_returned_trace cfg pol fname file d :
  outcome (read_check_spreadsheet num str_num cfg pol fname file)
    = inr (Some d) →
  read_check_spreadsheet num str_num cfg pol fname file
  = ([ReadExcel fname], inr (Some d)).
Proof.
  intros Hout.
  destruct (read_check_returned _ _ _ _ _ _ _ Hout) as (Hy & _).
  rewrite (read_check_after_checks _ _ _ _ _ _ Hy) in Hout |- *.
  destruct file as [cbodf|]; [|discriminate].
  destruct (fill_labels num str_num cbodf (CBO_STR_COLS cfg) ∅)
    as [e|cbolabel]; [discriminate|].
  destruct (check_rows cfg cbolabel (CBO_ROWS cfg)) as [t [e|[u|]]] eqn:Hrows;
    try discriminate.
  destruct (check_rows_passed_inv _ _ _ _ _ Hrows) as [_ ->].
  injection Hout as <-. reflexivity.
Qed.

(** With accepted arguments and a sheet that passes the check, when
    [CBO_ROWS] has a "c_cpiu" entry, the first column is A or later, the
    sheet reaches the last year's column and the entry's row holds no text
    in the year columns, [main] reads the file, prints one line per year
    from the first to the last in ascending order, each with the cell of
    that row in the year's column, writes nothing to standard error and
    returns 0. *)
Theorem main_prints_one_line_per_year
    (cfg : config) (pol : policy) (fname : string) (path_exists : bool)
    (file : option (DataFrame num)) (d : DataFrame num) (spec : cbo_row)
    (rw : list (cell num)) :
  outcome (check_arguments fname path_exists) = inr 0 →
  outcome (read_check_spreadsheet num str_num cfg pol fname file)
    = inr (Some d) →
  rows_get (CBO_ROWS cfg) "c_cpiu" = Some spec →
  getitem (rows d) (rindex (row spec)) = inr rw →
  of_ascii "A" ≤ of_ascii (col (first (CBO_YEAR cfg))) →
  cindex (of_ascii (col (last (CBO_YEAR cfg)))) < Z.of_nat (ncols d) →
  (∀ y s, year (first (CBO_YEAR cfg)) ≤ y ≤ year (last (CBO_YEAR cfg)) →
          cell_of rw (Z.to_nat (cindex (of_ascii (col (first (CBO_YEAR cfg))))
                                + (y - year (first (CBO_YEAR cfg)))))
          ≠ CStr s) →
  main num str_num cfg pol fname path_exists file =
  (Event (ReadExcel fname)
   :: map (fun y =>
             let c := cell_of rw
                        (Z.to_nat (cindex (of_ascii (col (first (CBO_YEAR cfg))))
                                   + (y - year (first (CBO_YEAR cfg))))) in
             Print y (if pct spec then VPct c else VCell c))
        (seqZ (year (first (CBO_YEAR cfg)))
           (year (last (CBO_YEAR cfg)) + 1 - year (first (CBO_YEAR cfg)))),
   inr 0).
Proof.
  intros Hargs Hout Hn Hrw HA Hwide Hnum. unfold main.
  destruct (check_arguments_outcome fname path_exists) as [E|[t E]];
    rewrite E in Hargs |- *; [|discriminate Hargs].
  destruct (read_check_returned _ _ _ _ _ _ _ Hout) as (Hok & _).
  assert (Hc : ydiff cfg = cdiff cfg).
  { destruct Hok as (Hc & _).
    destruct (check_cbo_year_cases cfg) as [[E' _]|[_ E']]; [exact E'|].
    rewrite E' in Hc. discriminate Hc. }
  rewrite (read_check_returned_trace _ _ _ _ _ Hout).
  unfold of_io, trace, outcome, run_bind. simpl.
  rewrite (print_years_cells cfg d
             (fun y =>
                let c := cell_of rw
                           (Z.to_nat
                              (cindex (of_ascii (col (first (CBO_YEAR cfg))))
                               + (y - year (first (CBO_YEAR cfg))))) in
                if pct spec then VPct c else VCell c)).
  - simpl. rewrite app_nil_r. reflexivity.
  - intros y Hy. apply elem_of_seqZ in Hy.
    assert (Hin : year (first (CBO_YEAR cfg)) ≤ y ≤ year (last (CBO_YEAR cfg)))
      by lia.
    split.
    + rewrite (cbo_value_in_range _ _ _ _ _ _ Hn Hin Hc).
      change (of_ascii (col (first (CBO_YEAR cfg))) - of_ascii "A"
              + (y - year (first (CBO_YEAR cfg))))
        with (cindex (of_ascii (col (first (CBO_YEAR cfg))))
              + (y - year (first (CBO_YEAR cfg)))).
      change (row spec - 1) with (rindex (row spec)).
      unfold iat. rewrite Hrw.
      assert (Hk : 0 ≤ cindex (of_ascii (col (first (CBO_YEAR cfg))))
                       + (y - year (first (CBO_YEAR cfg)))
                   < Z.of_nat (ncols d)).
      { unfold ydiff, cdiff in Hc. unfold cindex, ord in *. lia. }
      destruct (Z.ltb_spec (cindex (of_ascii (col (first (CBO_YEAR cfg))))
                            + (y - year (first (CBO_YEAR cfg)))) 0); [lia|].
      destruct (Z.leb_spec 0 (cindex (of_ascii (col (first (CBO_YEAR cfg))))
                              + (y - year (first (CBO_YEAR cfg))))); [|lia].
      destruct (Z.ltb_spec (cindex (of_ascii (col (first (CBO_YEAR cfg))))
                            + (y - year (first (CBO_YEAR cfg))))
                           (Z.of_nat (ncols d))); [|lia].
      simpl. specialize (Hnum y).
      destruct (cell_of rw _) as [s| |] eqn:Hcell;
        [exfalso; apply (Hnum s Hin); reflexivity| |];
        destruct (pct spec); reflexivity.
    + specialize (Hnum y). cbv zeta.
      destruct (cell_of rw _) as [s| |] eqn:Hcell;
        [exfalso; apply (Hnum s Hin); reflexivity| |];
        destruct (pct spec); reflexivity.
Qed.

End MainRuns.

Section MainRunsOnSheets.
Import Py PyExt Cbo Script Examples.

Lemma main_rejects_bad_arguments_witness :
  main Z str_int cbo_2024 pol "cbo.xls" true (Some good_sheet) =
  ((map Event (trace (check_arguments "cbo.xls" true))
    ++ [Event (StderrWrite ("USAGE: " ++ usage_str ++ nl))])%list, inr 1).
Proof.
  apply (main_rejects_bad_arguments Z str_int cbo_2024 pol "cbo.xls" true
           (Some good_sheet)).
  vm_compute. discriminate.
Defined.

Lemma main_prints_nothing_without_sheet_witness :
  main Z str_int cbo_2024 pol "cbo.xlsx" true (Some near_miss_sheet) =
  ((map Event (trace (read_check_spreadsheet Z str_int cbo_2024 pol
                        "cbo.xlsx" (Some near_miss_sheet)))
    ++ [Event (StderrWrite
                 ("ERROR: CBO spreadsheet has unexpected structure" ++ nl))])%list,
   inr 1).
Proof.
  apply (main_prints_nothing_without_sheet Z str_int cbo_2024 pol "cbo.xlsx"
           true (Some near_miss_sheet)).
  - vm_compute. reflexivity.
  - vm_compute. reflexivity.
Defined.

Lemma main_prints_one_line_per_year_witness :
  main Z str_int cbo_2024 pol "cbo.xlsx" true (Some good_sheet) =
  (Event (ReadExcel "cbo.xlsx")
   :: map (fun y =>
             Print y (VCell (cell_of
                               ([CStr "Chained consumer price index (CPI-U)";
                                 CNaN; CNaN; CNaN] ++ cpiu_values)%list
                               (Z.to_nat (cindex (of_ascii "E")
                                          + (y - 2021))))))
        (seqZ 2021 (2034 + 1 - 2021)),
   inr 0).
Proof.
  apply (main_prints_one_line_per_year Z str_int cbo_2024 pol "cbo.xlsx" true
           (Some good_sheet) good_sheet
           {| row := 158; label := "Chained consumer price index";
              pct := false |}
           ([CStr "Chained consumer price index (CPI-U)"; CNaN; CNaN; CNaN]
            ++ cpiu_values)%list).
  - vm_compute. reflexivity.
  - vm_compute. reflexivity.
  - reflexivity.
  - vm_compute. reflexivity.
  - vm_compute. discriminate.
  - vm_compute. reflexivity.
  - intros y s Hy. simpl in Hy.
    change (cindex (of_ascii (col (first (CBO_YEAR cbo_2024))))) with 4.
    change (year (first (CBO_YEAR cbo_2024))) with 2021.
    assert (Hn : (4 ≤ Z.to_nat (4 + (y - 2021)) < 18)%nat) by lia.
    revert Hn. generalize (Z.to_nat (4 + (y - 2021))). intros n Hn.
    do 18 (destruct n as [|n]; [first [lia | discriminate]|]). lia.
Defined.

End MainRunsOnSheets.

(** ** The estimates outside the wage buckets *)
Section Nonwages.
Import Py PyExt Soi UpdateSoi.
Variable row : Type.
Variable all_returns_total : list row → colkey → exn + Z.

Lemma add_columns_acc data cols acc values :
  add_columns row all_returns_total data cols acc = inr values →
  ∀ key,
    default 0 (values !! key)
    = fold_left add64 (named_cells all_returns_total data cols key)
        (default 0 (acc !! key))
    ∧ (values !! key = None ↔ acc !! key = None ∧ key ∉ cols.*1).
Proof.
  revert acc. induction cols as [|[name k] rest IH]; intros acc Hadd key.
  - injection Hadd as <-. split; [reflexivity|].
    split; [intros H; split; [exact H|apply not_elem_of_nil]|intros [H _]; exact H].
  - simpl in Hadd.
    destruct (all_returns_total data k) as [e|val] eqn:Hval; [discriminate|].
    destruct (IH _ Hadd key) as [Hsum Hnone]. unfold named_cells. simpl.
    rewrite Hval. fold (named_cells all_returns_total data rest key).
    destruct (String.eqb_spec name key) as [->|Hne].
    + rewrite lookup_insert_eq in Hsum, Hnone. split; [exact Hsum|].
      split; [intros H; apply Hnone in H as [H _]; discriminate H|].
      intros [_ H]. exfalso. apply H. apply elem_of_cons. left. reflexivity.
    + rewrite lookup_insert_ne in Hsum, Hnone by exact Hne.
      split; [exact Hsum|]. rewrite Hnone, not_elem_of_cons.
      split; [intros [? ?]; repeat split; auto|].
      intros [? [? ?]]. split; assumption.
Qed.

Lemma add_columns_succeeds data cols acc :
  Forall (fun col : string * colkey =>
            ∃ val, all_returns_total data col.2 = inr val) cols →
  ∃ values, add_columns row all_returns_total data cols acc = inr values.
Proof.
  intros Hall. revert acc.
  induction Hall as [|col rest [val Hval] _ IH]; intros acc; simpl.
  - eauto.
  - rewrite Hval. apply IH.
Qed.

(** When [table14_nonwages] returns its dictionary, it has printed
    nothing, and the dictionary holds exactly the names of [cols]: under
    each name the sum, in [int64] arithmetic, of the "All returns, total"
    cells of all the columns listed under that name. Any other name reads
    as 0. *)
Theorem table14_nonwages_adds_by_name
    (global_year : string) (data : list row) (cols : list (string * colkey))
    (printed : list string) (values : gmap string Z) :
  table14_nonwages row all_returns_total global_year data cols
    = (printed, inr (Values values)) →
  printed = []
  ∧ global_year ≠ "18"
  ∧ ∀ key,
      nonwages_get (Values values) key
      = out_ret (wrap64 (foldr Z.add 0
                           (named_cells all_returns_total data cols key)))
      ∧ (is_Some (values !! key) ↔ key ∈ cols.*1).
Proof.
  unfold table14_nonwages.
  destruct (String.eqb_spec global_year "18") as [->|Hne]; [discriminate|].
  destruct (add_columns row all_returns_total data cols ∅) as [e|m] eqn:Hadd;
    [discriminate|].
  intros [= <- <-]. split; [reflexivity|]. split; [exact Hne|].
  intros key. destruct (add_columns_acc _ _ _ _ Hadd key) as [Hsum Hnone].
  split.
  - unfold nonwages_get. f_equal. rewrite Hsum, lookup_empty. simpl.
    apply sum64_total.
  - rewrite <- not_eq_None_Some, Hnone, lookup_empty.
    split; [|intros H [_ H']; contradiction].
    intros H. destruct (decide (key ∈ cols.*1)); [assumption|].
    exfalso. apply H. split; [reflexivity|assumption].
Qed.

End Nonwages.

(** ** The assembled row of estimates *)
Section UpdateSoiRuns.
Import Py PyExt Soi UpdateSoi.
Variable row : Type.
Variable salaries_and_wages : row → Z.
Variable all_returns_total : list row → colkey → exn + Z.
Variable read_table14 : string → exn + list row.
Variable table12_sheet : Type.
Variable read_table12 : string → exn + table12_sheet.
Variable numfilers : table12_sheet → string → exn + Z.
Variable table21_sheet : Type.
Variable read_table21 : string → exn + table21_sheet.
Variable interest_paid : table21_sheet → string → exn + Z.

Lemma table14_wages_21 (data : list row) (indicies : list (Z * Z)) :
  length data = 21%nat →
  table14_wages row salaries_and_wages data indicies
  = inr (map (bucket (map salaries_and_wages data)) indicies).
Proof.
  intros Hlen. rewrite table14_wages_assert.
  destruct (decide (length data = 21%nat)); [reflexivity|contradiction].
Qed.

Lemma table14_returns global_year year wage_indicies sheet values :
  global_year ≠ "18" →
  read_table14 (str_from year (-2) ++ "in14ar.xls") = inr sheet →
  (21 ≤ length sheet)%nat →
  add_columns row all_returns_total (take 21 sheet) TABLE14COLS ∅
    = inr values →
  table14 row salaries_and_wages all_returns_total read_table14
    global_year year wage_indicies
  = ([], inr (Values values,
              map (bucket (map salaries_and_wages (take 21 sheet)))
                wage_indicies)).
Proof.
  intros Hne Hread Hlen Hadd. unfold table14, table14_nonwages.
  rewrite Hread. unfold attempt, out_bind at 1.
  assert (Hhead : slice sheet 0 21 = take 21 sheet)
    by apply (slice_head sheet 21).
  cbv zeta. rewrite Hhead.
  destruct (String.eqb_spec global_year "18"); [contradiction|].
  rewrite Hadd, table14_wages_21 by (rewrite length_take; lia).
  reflexivity.
Qed.

Lemma table14_year_18 year wage_indicies sheet :
  read_table14 (str_from year (-2) ++ "in14ar.xls") = inr sheet →
  (21 ≤ length sheet)%nat →
  table14 row salaries_and_wages all_returns_total read_table14
    "18" year wage_indicies
  = (["recheck the value by hand"],
     inr (EmptyList,
          map (bucket (map salaries_and_wages (take 21 sheet)))
            wage_indicies)).
Proof.
  intros Hread Hlen. unfold table14, table14_nonwages.
  rewrite Hread. unfold attempt, out_bind at 1.
  assert (Hhead : slice sheet 0 21 = take 21 sheet)
    by apply (slice_head sheet 21).
  cbv zeta. rewrite Hhead.
  rewrite table14_wages_21 by (rewrite length_take; lia).
  reflexivity.
Qed.

(** When the three tables are read and the module-level year is not
    "18", [update_soi] returns the filer counts, the non-wage estimates
    with 0 in the fifth place, the interest paid deduction unless the
    file is "cps", and then one wage bucket per index pair: 16 values
    and the buckets, or 15 and the buckets for "cps". *)
Theorem update_soi_row_layout
    (global_year year file_ : string) (wage_indicies : list (Z * Z))
    (printed12 printed21 : list string) (single married hoh ipd : Z)
    (sheet : list row) (values : gmap string Z) :
  global_year ≠ "18" →
  table12 table12_sheet read_table12 numfilers year
    = (printed12, inr (single, married, hoh)) →
  table21 table21_sheet read_table21 interest_paid year
    = (printed21, inr ipd) →
  read_table14 (str_from year (-2) ++ "in14ar.xls") = inr sheet →
  (21 ≤ length sheet)%nat →
  add_columns row all_returns_total (take 21 sheet) TABLE14COLS ∅
    = inr values →
  update_soi row salaries_and_wages all_returns_total read_table14
    table12_sheet read_table12 numfilers table21_sheet read_table21
    interest_paid global_year year wage_indicies file_
  = ((printed12 ++ printed21)%list,
     inr ([single; married; hoh;
           default 0 (values !! "SS_return"); 0;
           default 0 (values !! "INTS"); default 0 (values !! "DIVS");
           default 0 (values !! "SCHCI"); default 0 (values !! "SCHCL");
           default 0 (values !! "CGNS"); default 0 (values !! "Pension");
           default 0 (values !! "SCHEI"); default 0 (values !! "SCHEL");
           default 0 (values !! "SS"); default 0 (values !! "UCOMP")]
          ++ (if String.eqb file_ "cps" then [] else [ipd])
          ++ map (bucket (map salaries_and_wages (take 21 sheet)))
               wage_indicies)%list)
  ∧ ∀ result,
      snd (update_soi row salaries_and_wages all_returns_total
             read_table14 table12_sheet read_table12 numfilers
             table21_sheet read_table21 interest_paid global_year year
             wage_indicies file_) = inr result →
      length result
      = ((if String.eqb file_ "cps" then 15 else 16)
         + length wage_indicies)%nat.
Proof.
  intros Hne H12 H21 Hread Hlen Hadd.
  assert (Hrun : update_soi row salaries_and_wages all_returns_total
                   read_table14 table12_sheet read_table12 numfilers
                   table21_sheet read_table21 interest_paid global_year year
                   wage_indicies file_
    = ((printed12 ++ printed21)%list,
       inr ([single; married; hoh;
             default 0 (values !! "SS_return"); 0;
             default 0 (values !! "INTS"); default 0 (values !! "DIVS");
             default 0 (values !! "SCHCI"); default 0 (values !! "SCHCL");
             default 0 (values !! "CGNS"); default 0 (values !! "Pension");
             default 0 (values !! "SCHEI"); default 0 (values !! "SCHEL");
             default 0 (values !! "SS"); default 0 (values !! "UCOMP")]
            ++ (if String.eqb file_ "cps" then [] else [ipd])
            ++ map (bucket (map salaries_and_wages (take 21 sheet)))
                 wage_indicies)%list)).
  { unfold update_soi. rewrite H12. unfold out_bind at 1. rewrite H21.
    unfold out_bind at 1.
    rewrite (table14_returns _ _ _ _ _ Hne Hread Hlen Hadd).
    unfold out_bind, nonwages_get, out_ret. simpl.
    rewrite !app_nil_r.
    destruct (String.eqb file_ "cps"); reflexivity. }
  split; [exact Hrun|].
  intros result. rewrite Hrun. simpl. intros [= <-].
  destruct (String.eqb file_ "cps"); simpl; rewrite length_map; reflexivity.
Qed.

(** With the module-level year "18", [table14_nonwages] hands back an
    empty list after printing its note, so [update_soi] ends in
    [TypeError] at its first look-up in it, although all three tables
    were read. *)
Theorem update_soi_year_18_type_error
    (year file_ : string) (wage_indicies : list (Z * Z))
    (printed12 printed21 : list string) (single married hoh ipd : Z)
    (sheet : list row) :
  table12 table12_sheet read_table12 numfilers year
    = (printed12, inr (single, married, hoh)) →
  table21 table21_sheet read_table21 interest_paid year
    = (printed21, inr ipd) →
  read_table14 (str_from year (-2) ++ "in14ar.xls") = inr sheet →
  (21 ≤ length sheet)%nat →
  update_soi row salaries_and_wages all_returns_total read_table14
    table12_sheet read_table12 numfilers table21_sheet read_table21
    interest_paid "18" year wage_indicies file_
  = ((printed12 ++ printed21 ++ ["recheck the value by hand"])%list,
     inl TypeError).
Proof.
  intros H12 H21 Hread Hlen.
  unfold update_soi. rewrite H12. unfold out_bind at 1. rewrite H21.
  unfold out_bind at 1.
  rewrite (table14_year_18 _ _ _ Hread Hlen).
  unfold out_bind, nonwages_get. simpl.
  reflexivity.
Qed.

End UpdateSoiRuns.

(** ** Buckets that leave the table *)
Section BucketEdges.
Import Py PyExt Soi UpdateSoi SoiExamples.

Lemma bucket_clamped (column : list Z) (i j : Z) :
  0 ≤ i → 0 ≤ j →
  bucket column (i, j)
  = wrap64 (rows_total column i (Z.min j (Z.of_nat (length column) - 1))).
Proof.
  intros Hi Hj.
  unfold bucket. rewrite sum64_total. f_equal.
  unfold slice, slice_bound, rows_total.
  destruct (Z.ltb_spec i 0); [lia|].
  destruct (Z.ltb_spec (j + 1) 0); [lia|].
  destruct (Z_lt_le_dec i (Z.of_nat (length column))) as [Hlt|Hge].
  - rewrite (Z.min_l i) by lia.
    replace (Z.to_nat (Z.min (j + 1) (Z.of_nat (length column)) - i))
      with (Z.to_nat (Z.min j (Z.of_nat (length column) - 1) - i + 1))
      by lia.
    apply total_take_drop. lia.
  - rewrite (Z.min_r i) by lia.
    rewrite drop_ge by lia. rewrite take_nil.
    replace (Z.to_nat (Z.min j (Z.of_nat (length column) - 1) - i + 1))
      with 0%nat by lia.
    reflexivity.
Qed.

(** On a wage column of dtype [int64], rows past the end of the column
    are left out of a bucket without notice. On a table of 21 rows
    [table14_wages] raises nothing for non-negative pairs that reach past
    row 20: it returns, pair by pair, the [int64] sum of the rows from
    [i] up to row 20 at most, and 0 for a pair that starts past the end
    or runs backwards. On a column of any length a bucket is the [int64]
    sum of the rows [i] to [j] that exist. *)
Theorem bucket_ignores_rows_past_the_end
    (row : Type) (wage : row → Z) (data : list row)
    (indicies : list (Z * Z)) :
  length data = 21%nat →
  Forall (fun ij : Z * Z => 0 ≤ ij.1 ∧ 0 ≤ ij.2) indicies →
  table14_wages row wage data indicies
  = inr (map (fun ij => wrap64 (rows_total (map wage data) ij.1
                                  (Z.min ij.2 20))) indicies)
  ∧ Forall (fun ij : Z * Z =>
              21 ≤ ij.1 ∨ ij.2 < ij.1 → bucket (map wage data) ij = 0)
      indicies
  ∧ ∀ (column : list Z) (i j : Z),
      0 ≤ i → 0 ≤ j →
      bucket column (i, j)
      = wrap64 (rows_total column i
                  (Z.min j (Z.of_nat (length column) - 1))).
Proof.
  intros Hlen Hpos.
  assert (Hcol : Z.of_nat (length (map wage data)) - 1 = 20)
    by (rewrite length_map, Hlen; reflexivity).
  split; [|split; [|exact bucket_clamped]].
  - rewrite table14_wages_assert.
    destruct (decide (length data = 21%nat)); [|contradiction].
    f_equal. induction Hpos as [|[i j] rest [Hi Hj] _ IH]; [reflexivity|].
    cbn [map fst snd] in *. rewrite IH. f_equal.
    rewrite (bucket_clamped _ i j Hi Hj), Hcol. reflexivity.
  - eapply Forall_impl; [exact Hpos|].
    intros [i j] [Hi Hj] Hout. cbn [fst snd] in *.
    rewrite (bucket_clamped _ i j Hi Hj), Hcol. unfold rows_total.
    replace (Z.to_nat (Z.min j 20 - i + 1)) with 0%nat by lia.
    reflexivity.
Qed.

Lemma bucket_ignores_rows_past_the_end_witness :
  table14_wages Z id Examples.wage_column [(13, 25); (30, 40); (5, 3)]
  = inr [132; 0; 0].
Proof.
  rewrite (proj1 (bucket_ignores_rows_past_the_end Z id Examples.wage_column
                    [(13, 25); (30, 40); (5, 3)] eq_refl
                    ltac:(repeat constructor; simpl; lia))).
  vm_compute. reflexivity.
Defined.

End BucketEdges.

Section UpdateSoiRunsOnTables.
Import Py PyExt Soi UpdateSoi SoiExamples.

Lemma table14_nonwages_adds_by_name_witness :
  nonwages_get (Values totals) "SCHEI"
  = out_ret (wrap64 (foldr Z.add 0
                       (named_cells lookup_total (take 21 table14_sheet)
                          TABLE14COLS "SCHEI")))
  ∧ (is_Some (totals !! "SCHEI") ↔ "SCHEI" ∈ TABLE14COLS.*1).
Proof.
  refine (proj2 (proj2 (table14_nonwages_adds_by_name example_row lookup_total
                          "2017" (take 21 table14_sheet) TABLE14COLS [] totals
                          _)) "SCHEI").
  unfold table14_nonwages, totals. simpl String.eqb. cbv iota.
  destruct (add_columns_succeeds example_row lookup_total
              (take 21 table14_sheet) TABLE14COLS ∅) as [values ->];
    [|reflexivity].
  repeat constructor; eexists; vm_compute; reflexivity.
Defined.

Lemma update_soi_row_layout_witness :
  update_soi example_row wage_of lookup_total read14 unit read12 filers
    unit read21 paid "2017" "2017" CPSWAGES "cps"
  = ((["17in12ms.xls"] ++ [])%list,
     inr ([25; add64 74 44; 30;
           default 0 (totals !! "SS_return"); 0;
           default 0 (totals !! "INTS"); default 0 (totals !! "DIVS");
           default 0 (totals !! "SCHCI"); default 0 (totals !! "SCHCL");
           default 0 (totals !! "CGNS"); default 0 (totals !! "Pension");
           default 0 (totals !! "SCHEI"); default 0 (totals !! "SCHEL");
           default 0 (totals !! "SS"); default 0 (totals !! "UCOMP")]
          ++ (if String.eqb "cps" "cps" then [] else [7])
          ++ map (bucket (map wage_of (take 21 table14_sheet))) CPSWAGES)%list).
Proof.
  apply (update_soi_row_layout example_row wage_of lookup_total read14 unit
           read12 filers unit read21 paid "2017" "2017" "cps" CPSWAGES
           ["17in12ms.xls"] [] 25 (add64 74 44) 30 7 table14_sheet totals).
  - discriminate.
  - vm_compute. reflexivity.
  - vm_compute. reflexivity.
  - reflexivity.
  - vm_compute. lia.
  - unfold totals.
    destruct (add_columns_succeeds example_row lookup_total
                (take 21 table14_sheet) TABLE14COLS ∅) as [values ->];
      [|reflexivity].
    repeat constructor; eexists; vm_compute; reflexivity.
Defined.

Lemma update_soi_year_18_type_error_witness :
  update_soi example_row wage_of lookup_total read14 unit read12 filers
    unit read21 paid "18" "18" PUFWAGES "puf"
  = ((["18in12ms.xls"] ++ [] ++ ["recheck the value by hand"])%list,
     inl TypeError).
Proof.
  apply (update_soi_year_18_type_error example_row wage_of lookup_total
           read14 unit read12 filers unit read21 paid "18" "puf" PUFWAGES
           ["18in12ms.xls"] [] 25 (add64 74 44) 30 7 table14_sheet).
  - vm_compute. reflexivity.
  - vm_compute. reflexivity.
  - reflexivity.
  - vm_compute. lia.
Defined.

End UpdateSoiRunsOnTables.

(** ** Table 1.2 *)
Section Table12.
Import Py PyExt Soi UpdateSoi SoiExamples.
Variable table12_sheet : Type.
Variable read_table12 : string → exn + table12_sheet.
Variable numfilers : table12_sheet → string → exn + Z.

Lemma substring_all (t : string) : String.substring 0 (String.length t) t = t.
Proof. induction t as [|c t IH]; simpl; [reflexivity|]. rewrite IH. reflexivity. Qed.

Lemma substring_skip (s t : string) :
  String.substring (String.length s) (String.length t) (s ++ t) = t.
Proof.
  induction s as [|c s IH]; [apply substring_all|].
  change (String c s ++ t) with (String c (s ++ t)). simpl. exact IH.
Qed.

Lemma length_append (s t : string) :
  String.length (s ++ t) = (String.length s + String.length t)%nat.
Proof.
  induction s as [|c s IH]; [reflexivity|].
  change (String c s ++ t) with (String c (s ++ t)). simpl. rewrite IH.
  reflexivity.
Qed.

(** [year[-2:]] is the last two characters of the year. *)
Lemma str_from_last_two (s : string) (a b : ascii) :
  str_from (s ++ String a (String b "")) (-2) = String a (String b "").
Proof.
  unfold str_from, slice_bound. rewrite length_append. simpl String.length.
  destruct (Z.ltb_spec (-2) 0); [|lia].
  rewrite Z.max_l by lia.
  replace (Z.to_nat (-2 + Z.of_nat (String.length s + 2)))
    with (String.length s) by lia.
  replace (Z.to_nat (Z.of_nat (String.length s + 2)
                     - (-2 + Z.of_nat (String.length s + 2))))
    with (String.length (String a (String b ""))) by (simpl; lia).
  apply substring_skip.
Qed.

(** [table12] names its file by the last two characters of the year and
    prints that name before reading. A failed read ends the run there;
    when the four counts are found it returns the single count, the sum
    of the two married counts in [int64] arithmetic, and the head of
    household count. *)
Theorem table12_reads_two_digit_file
    (century : string) (a b : ascii) :
  (∀ e, read_table12 (String a (String b "in12ms.xls")) = inl e →
        table12 table12_sheet read_table12 numfilers
          (century ++ String a (String b ""))
        = ([String a (String b "in12ms.xls")], inl e))
  ∧ (∀ data single married1 married2 hoh,
       read_table12 (String a (String b "in12ms.xls")) = inr data →
       numfilers data "Returns of single persons" = inr single →
       numfilers data
         "Returns of married persons filing jointly and returns of surviving spouses"
         = inr married1 →
       numfilers data "Returns of married persons filing separately"
         = inr married2 →
       numfilers data "Returns of heads of households" = inr hoh →
       table12 table12_sheet read_table12 numfilers
         (century ++ String a (String b ""))
       = ([String a (String b "in12ms.xls")],
          inr (single, wrap64 (married1 + married2), hoh))).
Proof.
  unfold table12. rewrite str_from_last_two.
  change (String a (String b "") ++ "in12ms.xls")
    with (String a (String b "in12ms.xls")).
  split.
  - intros e ->. reflexivity.
  - intros data single married1 married2 hoh -> Hs Hm1 Hm2 Hh.
    unfold attempt, out_bind, print. simpl.
    rewrite Hs, Hm1, Hm2, Hh. reflexivity.
Qed.

End Table12.

Section Table12Runs.
Import Py PyExt Soi UpdateSoi SoiExamples.

Lemma table12_reads_two_digit_file_witness :
  table12 unit read12 filers ("20" ++ "17")
  = (["17in12ms.xls"], inr (25, wrap64 (74 + 44), 30)).
Proof.
  apply (proj2 (table12_reads_two_digit_file unit read12 filers "20"
                  "1" "7") tt 25 74 44 30); reflexivity.
Defined.

End Table12Runs.

(** ** What the two lists of buckets cover *)
Section BucketCoverage.
Import Py PyExt Soi UpdateSoi SoiExamples.

Lemma wrap64_sum_wrapped {A} (f : A → Z) (l : list A) :
  wrap64 (foldr Z.add 0 (map (fun x => wrap64 (f x)) l))
  = wrap64 (foldr Z.add 0 (map f l)).
Proof.
  induction l as [|x l IH]; [reflexivity|]. simpl.
  rewrite wrap64_add_l.
  rewrite (Z.add_comm (f x)), <- wrap64_add_l, IH, wrap64_add_l.
  f_equal. lia.
Qed.

Lemma buckets_total (column : list Z) (indicies : list (Z * Z)) :
  Forall (in_table (Z.of_nat (length column))) indicies →
  sum64 (map (bucket column) indicies)
  = wrap64 (foldr Z.add 0
              (map (fun ij => rows_total column ij.1 ij.2) indicies)).
Proof.
  intros Hin. rewrite map_bucket_in_table by exact Hin.
  rewrite sum64_total. apply wrap64_sum_wrapped.
Qed.

(** On a wage column of 21 rows the buckets of [CPSWAGES] add up, in
    [int64] arithmetic, to the rows 2 to 20, each counted once; the
    buckets of [PUFWAGES] add up to the same rows without row 16, which no
    pair of [PUFWAGES] contains. Rows 0 and 1 enter no bucket. *)
Theorem wage_buckets_cover_rows_2_to_20 (column : list Z) :
  length column = 21%nat →
  sum64 (map (bucket column) CPSWAGES) = wrap64 (rows_total column 2 20)
  ∧ sum64 (map (bucket column) PUFWAGES)
    = wrap64 (rows_total column 2 20 - default 0 (column !! 16%nat)).
Proof.
  intros Hlen.
  rewrite !buckets_total
    by (rewrite Hlen; first [apply CPSWAGES_in_table | apply PUFWAGES_in_table]).
  do 21 (destruct column as [|? column]; [discriminate Hlen|]).
  destruct column; [|discriminate Hlen].
  unfold rows_total. simpl. split; f_equal; lia.
Qed.

Lemma wage_buckets_cover_rows_2_to_20_witness :
  sum64 (map (bucket Examples.wage_column) CPSWAGES)
    = wrap64 (rows_total Examples.wage_column 2 20)
  ∧ sum64 (map (bucket Examples.wage_column) PUFWAGES)
    = wrap64 (rows_total Examples.wage_column 2 20
              - default 0 (Examples.wage_column !! 16%nat)).
Proof.
  apply (wage_buckets_cover_rows_2_to_20 Examples.wage_column). reflexivity.
Defined.

End BucketCoverage.
